(** * uv-workspace-demo: the cloud-manager facade and the database session helper

    A shallow embedding of

    - [libs/core/src/core/cloud_manager.py]  ([AWSCloudManager], [CloudManager]),
    - [libs/core/src/core/database.py]       ([Database]),
    - [apps/dl-archiver/src/dl_archiver/config.py] and [__init__.py],
    - [apps/dl-efs-cleanup/src/dl_efs_cleanup/__init__.py],

    followed by the properties of these programs.

    The vendor libraries (boto3, SQLAlchemy) and the file system are not part
    of the repository.  They appear here as an interface [External]: every
    call the Python code makes into them is a constructor of [call], its
    outcome is decided by an arbitrary world, and the embedding appends the
    call to a log, so that "which calls were made, with which arguments, in
    which order" is something theorems can state. *)

From stdpp Require Import base option list gmap strings.
From Stdlib Require Import Ascii String.

Local Open Scope string_scope.

(** ** Python exceptions and outcomes *)

(** The exception classes the programs raise or let through.  The last two
    derive from [BaseException] only: [except Exception] does not catch
    them. *)
Inductive exn_class : Type :=
| RuntimeError
| ValueError
| AttributeError
| KeyError
| OtherException (name : string)
| KeyboardInterrupt
| SystemExit.

Record exn : Type := Exn { exn_cls : exn_class; exn_msg : string }.

(** [isinstance(e, Exception)] *)
Definition isinstance_Exception (e : exn) : bool :=
  match exn_cls e with
  | KeyboardInterrupt | SystemExit => false
  | _ => true
  end.

Inductive result (A : Type) : Type :=
| Ok (a : A)
| Raise (e : exn).
Arguments Ok {A} a.
Arguments Raise {A} e.

Definition is_Ok {A} (r : result A) : bool :=
  match r with Ok _ => true | Raise _ => false end.

(** ** State and exceptions *)

Definition M (S A : Type) : Type := S -> result A * S.

Definition ret {S A} (a : A) : M S A := fun s => (Ok a, s).

Definition raise {S A} (e : exn) : M S A := fun s => (Raise e, s).

Definition bind {S A B} (m : M S A) (k : A -> M S B) : M S B :=
  fun s =>
    match m s with
    | (Ok a, s') => k a s'
    | (Raise e, s') => (Raise e, s')
    end.

Notation "'let*' x ':=' c1 'in' c2" := (bind c1 (fun x => c2))
  (at level 10, x pattern, c1 at level 100, c2 at level 200).

(** ** The external world *)

(** [AWSConfig] is a [TypedDict] with [total=False]: a dictionary in which
    any key may be absent, and a present key may hold [None]. *)
Abbreviation AWSConfig := (gmap string (option string)).

(** What the S3 listing returns: each page is a dictionary, its ["Contents"]
    entry (when there is one) a list of dictionaries, one per object. *)
Abbreviation S3Object := (gmap string string).
Abbreviation Page := (gmap string (list S3Object)).

(** Handles.  A handle records the arguments its constructor was given. *)
Record Boto3Session : Type := { session_profile_name : option string }.

Record S3Client : Type := {
  client_session : Boto3Session;
  client_service_name : string;
  client_region_name : option string
}.

Record Engine : Type := { engine_url : string; engine_echo : bool }.

Record sessionmaker : Type := {
  sm_bind : Engine;
  sm_autocommit : bool;
  sm_autoflush : bool
}.

Record OrmSession : Type := { orm_maker : sessionmaker; orm_id : nat }.

(** Calls that leave the repository. *)
Inductive call : Type :=
(* boto3 *)
| boto3_Session (profile_name : option string)
| Session_client (session : Boto3Session) (service_name : string)
                 (region_name : option string)
| S3_upload_file (c : S3Client) (Filename Bucket Key : string)
| S3_download_file (c : S3Client) (Bucket Key Filename : string)
| S3_copy_object (c : S3Client) (Bucket Key CopySource : string)
| S3_delete_object (c : S3Client) (Bucket Key : string)
| S3_paginate (c : S3Client) (operation_name Bucket Prefix : string)
(* SQLAlchemy *)
| create_engine (url : string) (echo : bool)
| sessionmaker_call (maker : sessionmaker)
| Session_execute (s : OrmSession) (stmt : string)
| Session_commit (s : OrmSession)
| Session_rollback (s : OrmSession)
| Session_close (s : OrmSession)
(* builtins *)
| open_write (path data : string).

(** What a call hands back when it does not raise.  A listing hands back the
    pages it delivered and, when the iteration broke off, the exception that
    ended it.  [sessionmaker_call] hands back the identity of the new
    session. *)
Definition ret_ty (c : call) : Type :=
  match c with
  | S3_paginate _ _ _ _ => (list Page * option exn)%type
  | sessionmaker_call _ => nat
  | _ => unit
  end.

Class External (W : Type) : Type :=
  ext : forall c : call, W -> result (ret_ty c) * W.

(** Things the log records: the external calls, and each construction of the
    concrete client by the facade. *)
Inductive event : Type :=
| Ext (c : call)
| New_AWSCloudManager (config : AWSConfig).

Record Env (W : Type) : Type := { log : list event; world : W }.
Arguments log {W} _.
Arguments world {W} _.

Section Objects.
Context {W : Type} `{External W}.

(** An external call: the world decides its outcome, the log records it. *)
Definition call_ext (c : call) : M (Env W) (ret_ty c) :=
  fun env =>
    let '(r, w) := ext c (world env) in
    (r, {| log := (log env ++ [Ext c])%list; world := w |}).

Definition record_event (e : event) : M (Env W) unit :=
  fun env => (Ok tt, {| log := (log env ++ [e])%list; world := world env |}).

(** Methods of a mutable object of type [T] run on the object and the
    environment. *)
Definition lift_env {T A} (m : M (Env W) A) : M (T * Env W) A :=
  fun '(self, env) => let '(r, env') := m env in (r, (self, env')).

Definition extern {T} (c : call) : M (T * Env W) (ret_ty c) :=
  lift_env (call_ext c).

Definition get_self {T} : M (T * Env W) T :=
  fun '(self, env) => (Ok self, (self, env)).

Definition set_self {T} (self' : T) : M (T * Env W) unit :=
  fun '(_, env) => (Ok tt, (self', env)).

(** A method call on an object held in a local variable. *)
Definition on_local {T A} (obj : T) (m : M (T * Env W) A) : M (Env W) A :=
  fun env => let '(r, (_, env')) := m (obj, env) in (r, env').
End Objects.

(** ** cloud_manager.py *)

Inductive CloudProvider : Type := AWS.

(** [class AWSCloudManager(AbstractCloudManager)] *)
Module AWSCloudManager.

Record t : Type := mk {
  region_name : option string;
  profile_name : option string;
  access_key_id : option string;
  secret_key_id : option string;
  session_token : option string;
  _s3_client : option S3Client
}.

Definition set__s3_client (self : t) (c : option S3Client) : t :=
  {| region_name := region_name self;
     profile_name := profile_name self;
     access_key_id := access_key_id self;
     secret_key_id := secret_key_id self;
     session_token := session_token self;
     _s3_client := c |}.

(** [dict.get(key)] and [dict.get(key, default)] *)
Definition dict_get (config : AWSConfig) (key : string) : option string :=
  default None (config !! key).

Definition dict_get_default (config : AWSConfig) (key : string)
    (d : option string) : option string :=
  default d (config !! key).

Definition __init__ (config : AWSConfig) : t :=
  {| region_name := dict_get_default config "aws_region_name" (Some "us-east-1");
     profile_name := dict_get config "aws_profile_name";
     access_key_id := dict_get config "aws_access_key_id";
     secret_key_id := dict_get config "aws_secret_key_id";
     session_token := dict_get config "aws_session_token";
     _s3_client := None |}.

Section Methods.
Context {W : Type} `{External W}.

Abbreviation St := (t * Env W)%type.

(** The [s3_client] property.  A client object is always truthy, so
    [not self._s3_client] tests for [None]. *)
Definition s3_client : M St S3Client :=
  let* self := get_self in
  match _s3_client self with
  | None =>
      let* _ := extern (boto3_Session (profile_name self)) in
      let session := {| session_profile_name := profile_name self |} in
      let* _ := extern (Session_client session "s3" (region_name self)) in
      let c := {| client_session := session;
                  client_service_name := "s3";
                  client_region_name := region_name self |} in
      let* _ := set_self (set__s3_client self (Some c)) in
      ret c
  | Some c => ret c
  end.

Definition upload_object (file_path bucket_name object_key : string)
    : M St unit :=
  let* c := s3_client in
  extern (S3_upload_file c file_path bucket_name object_key).

Definition download_object (bucket_name object_key file_path : string)
    : M St unit :=
  let* c := s3_client in
  extern (S3_download_file c bucket_name object_key file_path).

Definition delete_object (bucket_name object_key : string) : M St unit :=
  let* c := s3_client in
  extern (S3_delete_object c bucket_name object_key).

Definition move_object (bucket_name object_key dest_object_key : string)
    (delete_source : bool) : M St unit :=
  let* _ := upload_object bucket_name object_key dest_object_key in
  if delete_source then delete_object bucket_name object_key
  else ret tt.

Definition transfer_object
    (bucket_name object_key dest_bucket_name dest_object_key : string)
    (delete_source : bool) : M St unit :=
  let copy_source := bucket_name ++ "/" ++ object_key in
  let* c := s3_client in
  let* _ := extern (S3_copy_object c dest_bucket_name dest_object_key
                                   copy_source) in
  if delete_source then delete_object bucket_name object_key
  else ret tt.

(** The inner loop of [list_dir]:
    [for obj in objs: yield obj["Key"]].  It yields keys until an object
    has no ["Key"] entry, where the subscript raises [KeyError]. *)
Fixpoint yield_keys (objs : list S3Object) : list string * option exn :=
  match objs with
  | [] => ([], None)
  | obj :: rest =>
      match obj !! "Key" with
      | Some k => let '(ks, stop) := yield_keys rest in (k :: ks, stop)
      | None => ([], Some (Exn KeyError "'Key'"))
      end
  end.

(** The outer loop:
    [for page in pages: for obj in page.get("Contents", []): ...].
    [stop] is the exception that ends the page iterator after the
    delivered pages, if any. *)
Fixpoint yield_pages (pages : list Page) (stop : option exn)
    : list string * option exn :=
  match pages with
  | [] => ([], stop)
  | page :: rest =>
      match yield_keys (default [] (page !! "Contents")) with
      | (ks, Some e) => (ks, Some e)
      | (ks, None) =>
          let '(ks', stop') := yield_pages rest stop in ((ks ++ ks')%list, stop')
      end
  end.

(** [list_dir] is a generator; this is the generator run to exhaustion,
    [list(self.list_dir(bucket_name, prefix))]: the keys it yielded, or
    the exception that ended it. *)
Definition list_dir (bucket_name prefix : string) : M St (list string) :=
  let* c := s3_client in
  let* (pages, stop) :=
    extern (S3_paginate c "list_objects_v2" bucket_name prefix) in
  match yield_pages pages stop with
  | (ks, None) => ret ks
  | (_, Some e) => raise e
  end.
End Methods.

End AWSCloudManager.

(** The methods of the abstract interface, as one type: a method name with
    its arguments.  [delete_source] is passed explicitly (its default is
    [True]). *)
Inductive operation : Type :=
| Upload_object (file_path bucket_name object_key : string)
| Download_object (bucket_name object_key file_path : string)
| Move_object (bucket_name object_key dest_object_key : string)
              (delete_source : bool)
| Transfer_object (bucket_name object_key dest_bucket_name dest_object_key : string)
                  (delete_source : bool)
| Delete_object (bucket_name object_key : string)
| List_dir (bucket_name prefix : string).

Definition method_name (op : operation) : string :=
  match op with
  | Upload_object _ _ _ => "upload_object"
  | Download_object _ _ _ => "download_object"
  | Move_object _ _ _ _ => "move_object"
  | Transfer_object _ _ _ _ _ => "transfer_object"
  | Delete_object _ _ => "delete_object"
  | List_dir _ _ => "list_dir"
  end.

(** What a method call evaluates to: [None], or the keys of a listing. *)
Inductive value : Type :=
| VNone
| VKeys (keys : list string).

Definition returning_None {S} (m : M S unit) : M S value :=
  let* _ := m in ret VNone.

Definition AWSCloudManager_call {W : Type} `{External W} (op : operation)
    : M (AWSCloudManager.t * Env W) value :=
  match op with
  | Upload_object f b k => returning_None (AWSCloudManager.upload_object f b k)
  | Download_object b k f => returning_None (AWSCloudManager.download_object b k f)
  | Move_object b k dk d => returning_None (AWSCloudManager.move_object b k dk d)
  | Transfer_object b k db dk d =>
      returning_None (AWSCloudManager.transfer_object b k db dk d)
  | Delete_object b k => returning_None (AWSCloudManager.delete_object b k)
  | List_dir b p => let* ks := AWSCloudManager.list_dir b p in ret (VKeys ks)
  end.

(** The provider argument of [CloudManager] is annotated [CloudProvider], but
    nothing checks it: any object can be passed. *)
Inductive py_object : Type :=
| PyEnum (p : CloudProvider)
| PyStr (s : string)
| PyNone.

(** [class CloudManager(AbstractCloudManager)] *)
Module CloudManager.

Record t : Type := mk {
  _provider : py_object;
  _config : AWSConfig;
  _manager : option AWSCloudManager.t
}.

Definition set__manager (self : t) (m : option AWSCloudManager.t) : t :=
  {| _provider := _provider self; _config := _config self; _manager := m |}.

Definition __init__ (provider : py_object) (config : AWSConfig) : t :=
  {| _provider := provider; _config := config; _manager := None |}.

Section Methods.
Context {W : Type} `{External W}.

Abbreviation St := (t * Env W)%type.

(** The [manager] property.  [match self._provider] has the single case
    [CloudProvider.AWS], a value pattern: it is taken when the subject
    equals that member and no other case exists, so with any other
    subject [self._manager] stays [None] and [None] is returned. *)
Definition manager : M St (option AWSCloudManager.t) :=
  let* self := get_self in
  match _manager self with
  | None =>
      match _provider self with
      | PyEnum AWS =>
          let* _ := lift_env (record_event (New_AWSCloudManager (_config self))) in
          let m := AWSCloudManager.__init__ (_config self) in
          let* _ := set_self (set__manager self (Some m)) in
          ret (Some m)
      | _ => ret None
      end
  | Some m => ret (Some m)
  end.

(** [target.name(...)] where [target] is what [self.manager] returned: on
    [None] the attribute lookup raises; otherwise the method runs on the
    object [self._manager] refers to, which it may mutate. *)
Definition call_method {A} (target : option AWSCloudManager.t)
    (name : string) (m : M (AWSCloudManager.t * Env W) A) : M St A :=
  match target with
  | None =>
      raise (Exn AttributeError
                 ("'NoneType' object has no attribute '" ++ name ++ "'"))
  | Some obj =>
      fun '(self, env) =>
        let '(r, (obj', env')) := m (obj, env) in
        (r, (set__manager self (Some obj'), env'))
  end.

Definition upload_object (file_path bucket_name object_key : string)
    : M St unit :=
  let* target := manager in
  call_method target "upload_object"
    (AWSCloudManager.upload_object file_path bucket_name object_key).

Definition download_object (bucket_name object_key file_path : string)
    : M St unit :=
  let* target := manager in
  call_method target "download_object"
    (AWSCloudManager.download_object bucket_name object_key file_path).

Definition move_object (bucket_name object_key dest_object_key : string)
    (delete_source : bool) : M St unit :=
  let* target := manager in
  call_method target "move_object"
    (AWSCloudManager.move_object bucket_name object_key dest_object_key
                                 delete_source).

Definition transfer_object
    (bucket_name object_key dest_bucket_name dest_object_key : string)
    (delete_source : bool) : M St unit :=
  let* target := manager in
  call_method target "transfer_object"
    (AWSCloudManager.transfer_object bucket_name object_key
       dest_bucket_name dest_object_key delete_source).

Definition delete_object (bucket_name object_key : string) : M St unit :=
  let* target := manager in
  call_method target "delete_object"
    (AWSCloudManager.delete_object bucket_name object_key).

(** As for [AWSCloudManager.list_dir], the returned generator run to
    exhaustion. *)
Definition list_dir (bucket_name prefix : string) : M St (list string) :=
  let* target := manager in
  call_method target "list_dir"
    (AWSCloudManager.list_dir bucket_name prefix).
End Methods.

End CloudManager.

Definition CloudManager_call {W : Type} `{External W} (op : operation)
    : M (CloudManager.t * Env W) value :=
  match op with
  | Upload_object f b k => returning_None (CloudManager.upload_object f b k)
  | Download_object b k f => returning_None (CloudManager.download_object b k f)
  | Move_object b k dk d => returning_None (CloudManager.move_object b k dk d)
  | Transfer_object b k db dk d =>
      returning_None (CloudManager.transfer_object b k db dk d)
  | Delete_object b k => returning_None (CloudManager.delete_object b k)
  | List_dir b p => let* ks := CloudManager.list_dir b p in ret (VKeys ks)
  end.

(** A sequence of method calls on one object, each outcome recorded; an
    exception ends one call, not the sequence (the caller may catch it). *)
Fixpoint run_calls {S} (perform : operation -> M S value)
    (ops : list operation) (s : S) : list (result value) * S :=
  match ops with
  | [] => ([], s)
  | op :: rest =>
      let '(r, s') := perform op s in
      let '(rs, s'') := run_calls perform rest s' in
      (r :: rs, s'')
  end.

(** ** database.py *)

(** [try: body except Exception: handler(e)] *)
Definition try_except_Exception {S A} (body : M S A) (handler : exn -> M S A)
    : M S A :=
  fun s =>
    match body s with
    | (Ok a, s') => (Ok a, s')
    | (Raise e, s') =>
        if isinstance_Exception e then handler e s' else (Raise e, s')
    end.

(** [try: body finally: cleanup].  The cleanup always runs; when it raises,
    its exception replaces the outcome of the body. *)
Definition try_finally {S A} (body : M S A) (cleanup : M S unit) : M S A :=
  fun s =>
    let '(r, s') := body s in
    match cleanup s' with
    | (Ok _, s'') => (r, s'')
    | (Raise e, s'') => (Raise e, s'')
    end.

(** Truth value of a [str | None]. *)
Definition truthy (s : option string) : bool :=
  match s with
  | None => false
  | Some s => negb (String.eqb s "")
  end.

(** [class Database] *)
Module Database.

Record t : Type := mk {
  _db : Engine;
  _db_ro : option Engine;
  _session : sessionmaker;
  _session_ro : option sessionmaker
}.

Definition not_configured : exn :=
  Exn RuntimeError
      "Readonly connection not configured. Provide readonly_url when initializing the database.".

Section Methods.
Context {W : Type} `{External W}.

Definition new_engine (url : string) : M (Env W) Engine :=
  let* _ := call_ext (create_engine url false) in
  ret {| engine_url := url; engine_echo := false |}.

Definition new_sessionmaker (bind : Engine) : sessionmaker :=
  {| sm_bind := bind; sm_autocommit := false; sm_autoflush := false |}.

(** Engines and session factories are always truthy, so [if self._db_ro]
    tests for [None]. *)
Definition __init__ (write_url : string) (readonly_url : option string)
    : M (Env W) t :=
  let* db := new_engine write_url in
  let* db_ro :=
    match readonly_url with
    | Some url =>
        if truthy readonly_url
        then (let* e := new_engine url in ret (Some e))
        else ret None
    | None => ret None
    end in
  ret {| _db := db;
         _db_ro := db_ro;
         _session := new_sessionmaker db;
         _session_ro := option_map new_sessionmaker db_ro |}.

(** Calling a session factory. *)
Definition new_session (maker : sessionmaker) : M (Env W) OrmSession :=
  let* id := call_ext (sessionmaker_call maker) in
  ret {| orm_maker := maker; orm_id := id |}.

(** [with self.session(readonly) as s: body(s)].  The function is a
    [contextmanager] generator: its code up to [yield] runs on entry, the
    [with] body runs at the [yield] (an exception of the body is raised
    there), the rest on exit. *)
Definition session {A} (self : t) (readonly : bool)
    (body : OrmSession -> M (Env W) A) : M (Env W) A :=
  let* s :=
    match (if readonly then _session_ro self else None) with
    | Some maker_ro => new_session maker_ro
    | None =>
        if negb readonly then new_session (_session self)
        else raise not_configured
    end in
  try_finally
    (try_except_Exception
       (let* a := body s in
        let* _ := call_ext (Session_commit s) in
        ret a)
       (fun e =>
          let* _ := call_ext (Session_rollback s) in
          raise e))
    (call_ext (Session_close s)).
End Methods.

End Database.

(** ** dl_archiver/config.py *)

(** [str.lower] on the ASCII letters.  Python lowers by Unicode; no character
    outside [A-Z] lowers to ["a"], ["w"] or ["s"], so comparing the result
    with ["aws"] gives the same answer. *)
Definition lower_ascii (c : ascii) : ascii :=
  let n := nat_of_ascii c in
  if (65 <=? n)%nat && (n <=? 90)%nat then ascii_of_nat (n + 32) else c.

Fixpoint lower (s : string) : string :=
  match s with
  | EmptyString => EmptyString
  | String c rest => String (lower_ascii c) (lower rest)
  end.

(** The enumeration [CloudProvider]: members in definition order, values,
    and lookup by value [CloudProvider(v)]. *)
Definition CloudProvider_members : list CloudProvider := [AWS].

Definition CloudProvider_value (p : CloudProvider) : string :=
  match p with AWS => "aws" end.

Definition CloudProvider_by_value (v : string) : result CloudProvider :=
  match List.find (fun p => String.eqb (CloudProvider_value p) v)
                  CloudProvider_members with
  | Some p => Ok p
  | None => Raise (Exn ValueError ("'" ++ v ++ "' is not a valid CloudProvider"))
  end.

(** [repr] of a list of strings that need no escaping. *)
Definition repr_str_list (l : list string) : string :=
  "[" ++ String.concat ", " (List.map (fun s => "'" ++ s ++ "'") l) ++ "]".

Module Config.

Record t : Type := mk {
  aws_region_name : string;
  aws_access_key_id : option string;
  aws_secret_key_id : option string;
  aws_session_token : option string;
  aws_profile_name : option string;
  _provider_name : option string;
  database_url : string;
  readonly_database_url : option string
}.

(** [os.getenv(name)] and [os.getenv(name, default)] *)
Definition getenv (environ : gmap string string) (name : string)
    : option string :=
  environ !! name.

Definition getenv_default (environ : gmap string string) (name d : string)
    : string :=
  default d (environ !! name).

Definition __init__ (environ : gmap string string) : t :=
  {| aws_region_name := getenv_default environ "AWS_REGION" "us-east-1";
     aws_access_key_id := getenv environ "AWS_ACCESS_KEY_ID";
     aws_secret_key_id := getenv environ "AWS_SECRET_KEY_ID";
     aws_session_token := getenv environ "AWS_SESSION_TOKEN";
     aws_profile_name := getenv environ "AWS_PROFILE_NAME";
     _provider_name := getenv environ "CLOUD_PROVIDER";
     database_url := getenv_default environ "DATABASE_URL" "sqlite:///:memory:";
     readonly_database_url := getenv environ "READONLY_DATABASE_URL" |}.

Definition not_set : exn :=
  Exn ValueError "CLOUD_PROVIDER environment variable is not set".

Definition invalid_provider (name : string) : exn :=
  Exn ValueError
      ("Invalid cloud provider: " ++ name ++ ". Valid providers: "
       ++ repr_str_list (List.map CloudProvider_value CloudProvider_members)).

(** The [cloud_provider] property. *)
Definition cloud_provider (self : t) : result CloudProvider :=
  match _provider_name self with
  | Some name =>
      if truthy (Some name) then
        match CloudProvider_by_value (lower name) with
        | Ok p => Ok p
        | Raise err =>
            match exn_cls err with
            | ValueError => Raise (invalid_provider name)
            | _ => Raise err
            end
        end
      else Raise not_set
  | None => Raise not_set
  end.

(** The [provider_config] property: all five keys are present. *)
Definition provider_config (self : t) : AWSConfig :=
  <[ "aws_region_name" := Some (aws_region_name self) ]>
  (<[ "aws_access_key_id" := aws_access_key_id self ]>
  (<[ "aws_secret_key_id" := aws_secret_key_id self ]>
  (<[ "aws_session_token" := aws_session_token self ]>
  (<[ "aws_profile_name" := aws_profile_name self ]> ∅)))).

End Config.

(** ** dl_archiver/__init__.py *)

Module dl_archiver.
Section Main.
Context {W : Type} `{External W}.

Definition lift_result {A} (r : result A) : M (Env W) A :=
  fun env => (r, env).

(** The statement built by [sa.update(FileModel).where(...).values(...)]. *)
Definition update_stmt : string :=
  "UPDATE files SET path='new_path.txt' WHERE files.path = 'test.txt'".

(** Module level: [config = Config()] and
    [db = Database(config.database_url, config.readonly_database_url)]. *)
Definition module_init (environ : gmap string string)
    : M (Env W) (Config.t * Database.t) :=
  let config := Config.__init__ environ in
  let* db := Database.__init__ (Config.database_url config)
                               (Config.readonly_database_url config) in
  ret (config, db).

Definition main (config : Config.t) (db : Database.t) : M (Env W) unit :=
  let* _ := call_ext (open_write "test.txt" "Hello, world!") in
  let* provider := lift_result (Config.cloud_provider config) in
  let cm := CloudManager.__init__ (PyEnum provider)
                                  (Config.provider_config config) in
  let* _ := on_local cm
              (CloudManager.upload_object "test.txt" "test-bucket" "test.txt") in
  Database.session db true
    (fun session => call_ext (Session_execute session update_stmt)).
End Main.
End dl_archiver.

(** ** dl_efs_cleanup/__init__.py *)

Module dl_efs_cleanup.
Section Main.
Context {W : Type} `{External W}.

Definition wdb : string := "sqlite:///:memory:".
Definition rdb : option string := None.

Definition select_stmt : string := "SELECT 'hello world!' as greeting;".

(** Module level: [db = Database(wdb, rdb)]. *)
Definition module_init : M (Env W) Database.t := Database.__init__ wdb rdb.

Definition main (db : Database.t) : M (Env W) unit :=
  Database.session db false
    (fun session => call_ext (Session_execute session select_stmt)).
End Main.
End dl_efs_cleanup.

(** ** Two worlds *)

(** A world in which every call returns normally, sessions are numbered in the
    order of their creation and listings are empty. *)
#[export] Instance Quiet : External nat :=
  fun c n =>
    match c return result (ret_ty c) * nat with
    | S3_paginate _ _ _ _ => (Ok ([], None), n)
    | sessionmaker_call _ => (Ok n, S n)
    | boto3_Session _ | Session_client _ _ _
    | S3_upload_file _ _ _ _ | S3_download_file _ _ _ _
    | S3_copy_object _ _ _ _ | S3_delete_object _ _ _
    | create_engine _ _ | Session_execute _ _
    | Session_commit _ | Session_rollback _ | Session_close _
    | open_write _ _ => (Ok tt, n)
    end.

(** An object store and a local file system.  Objects live at a
    (bucket, key) address; files at a path. *)
Record S3World : Type := {
  objects : gmap (string * string) string;
  files : gmap string string
}.

Definition set_objects (w : S3World) (o : gmap (string * string) string)
    : S3World :=
  {| objects := o; files := files w |}.

Definition set_files (w : S3World) (f : gmap string string) : S3World :=
  {| objects := objects w; files := f |}.

(** S3 reads a copy source ["bucket/key"] by cutting it at the first slash
    (bucket names contain none). *)
Fixpoint split_copy_source (s : string) : string * string :=
  match s with
  | EmptyString => ("", "")
  | String c rest =>
      if Ascii.eqb c "/" then ("", rest)
      else let '(b, k) := split_copy_source rest in (String c b, k)
  end.

Fixpoint no_slash (s : string) : bool :=
  match s with
  | EmptyString => true
  | String c rest => negb (Ascii.eqb c "/") && no_slash rest
  end.

Definition client_error (code : string) : exn :=
  Exn (OtherException "botocore.exceptions.ClientError") code.

(** The keys of a bucket under a prefix, as one page; S3 leaves ["Contents"]
    out of an empty listing. *)
Definition listing (w : S3World) (Bucket Prefix : string) : list Page :=
  let keys :=
    omap (fun '((b, k), _) =>
            if String.eqb b Bucket && String.prefix Prefix k
            then Some k else None)
         (map_to_list (objects w)) in
  match keys with
  | [] => [∅]
  | _ => [ {[ "Contents" := List.map (fun k => ({[ "Key" := k ]} : S3Object)) keys ]} ]
  end.

#[export] Instance S3Model : External S3World :=
  fun c w =>
    match c return result (ret_ty c) * S3World with
    | S3_upload_file _ Filename Bucket Key =>
        match files w !! Filename with
        | Some data => (Ok tt, set_objects w (<[ (Bucket, Key) := data ]> (objects w)))
        | None => (Raise (Exn (OtherException "FileNotFoundError") Filename), w)
        end
    | S3_download_file _ Bucket Key Filename =>
        match objects w !! (Bucket, Key) with
        | Some data => (Ok tt, set_files w (<[ Filename := data ]> (files w)))
        | None => (Raise (client_error "404"), w)
        end
    | S3_copy_object _ Bucket Key CopySource =>
        let src := split_copy_source CopySource in
        if decide (src = (Bucket, Key))
        then (Raise (client_error "InvalidRequest"), w)
        else
          match objects w !! src with
          | Some data => (Ok tt, set_objects w (<[ (Bucket, Key) := data ]> (objects w)))
          | None => (Raise (client_error "NoSuchKey"), w)
          end
    | S3_delete_object _ Bucket Key =>
        (Ok tt, set_objects w (delete (Bucket, Key) (objects w)))
    | S3_paginate _ _ Bucket Prefix => (Ok (listing w Bucket Prefix, None), w)
    | open_write path data => (Ok tt, set_files w (<[ path := data ]> (files w)))
    | sessionmaker_call _ => (Ok 0%nat, w)
    | boto3_Session _ | Session_client _ _ _
    | create_engine _ _ | Session_execute _ _
    | Session_commit _ | Session_rollback _ | Session_close _ => (Ok tt, w)
    end.

Definition start {W} (w : W) : Env W := {| log := []; world := w |}.

Local Open Scope list_scope.

(** Reading a log. *)

Definition is_construction (e : event) : bool :=
  match e with New_AWSCloudManager _ => true | Ext _ => false end.

(** How many times the facade constructed a concrete client. *)
Definition constructions (l : list event) : nat :=
  List.length (List.filter is_construction l).

Definition is_client_construction (e : event) : bool :=
  match e with
  | Ext (boto3_Session _) | Ext (Session_client _ _ _) => true
  | _ => false
  end.

(** How many times a boto3 session or client was asked for. *)
Definition client_constructions (l : list event) : nat :=
  List.length (List.filter is_client_construction l).

Definition is_copy (e : event) : bool :=
  match e with Ext (S3_copy_object _ _ _ _) => true | _ => false end.

(** Outcome of an external call in a given world. *)
Definition returns {W} `{External W} (c : call) (w : W) : bool :=
  is_Ok (ext c w).1.

Definition after {W} `{External W} (c : call) (w : W) : W := (ext c w).2.

(** The client a manager constructs, from its own two fields. *)
Definition client_of (self : AWSCloudManager.t) : S3Client :=
  {| client_session :=
       {| session_profile_name := AWSCloudManager.profile_name self |};
     client_service_name := "s3";
     client_region_name := AWSCloudManager.region_name self |}.

(** The environment after the facade constructed its concrete client. *)
Definition constructed {W} (config : AWSConfig) (env : Env W) : Env W :=
  {| log := log env ++ [New_AWSCloudManager config]; world := world env |}.

(** The exception of a method call on [None]. *)
Definition no_attribute (name : string) : exn :=
  Exn AttributeError ("'NoneType' object has no attribute '" ++ name ++ "'")%string.

(** ** The vocabulary of the properties *)

(** A computation is tame when it only appends external calls to the log,
    touches no field of the manager but [_s3_client], and, once a client is
    cached, keeps it and asks for no other. *)
Definition tame {W : Type} `{External W} {A}
    (m : M (AWSCloudManager.t * Env W) A) : Prop :=
  forall (self : AWSCloudManager.t) (env : Env W),
    let out := m (self, env) in
    exists delta,
      log out.2.2 = log env ++ delta
      /\ Forall (fun e => is_construction e = false) delta
      /\ out.2.1 =
           AWSCloudManager.set__s3_client self
             (AWSCloudManager._s3_client out.2.1)
      /\ forall c, AWSCloudManager._s3_client self = Some c ->
           AWSCloudManager._s3_client out.2.1 = Some c
           /\ Forall (fun e => is_client_construction e = false) delta.

(** Two managers that may differ in the three credential fields only. *)
Definition same_but_credentials (m1 m2 : AWSCloudManager.t) : Prop :=
  AWSCloudManager.region_name m1 = AWSCloudManager.region_name m2
  /\ AWSCloudManager.profile_name m1 = AWSCloudManager.profile_name m2
  /\ AWSCloudManager._s3_client m1 = AWSCloudManager._s3_client m2.

(** A computation is blind to the credentials when it cannot tell two such
    managers apart: same outcome, same log and world, and the managers it
    leaves still differ in the credential fields only. *)
Definition blind {W : Type} `{External W} {A}
    (m : M (AWSCloudManager.t * Env W) A) : Prop :=
  forall (m1 m2 : AWSCloudManager.t) (env : Env W),
    same_but_credentials m1 m2 ->
    (m (m1, env)).1 = (m (m2, env)).1
    /\ (m (m1, env)).2.2 = (m (m2, env)).2.2
    /\ same_but_credentials (m (m1, env)).2.1 (m (m2, env)).2.1.

(** The keys a page lists: those of the objects under its ["Contents"]
    entry, none when the entry is absent. *)
Definition listed_keys (page : Page) : list string :=
  match page !! "Contents" with
  | Some objs => omap (fun obj : S3Object => obj !! "Key") objs
  | None => []
  end.

Definition has_Key (obj : S3Object) : bool :=
  match obj !! "Key" with Some _ => true | None => false end.

(** Every object listed on the page has a ["Key"] entry (as S3 guarantees). *)
Definition well_keyed (page : Page) : bool :=
  forallb has_Key (default [] (page !! "Contents")).

(** The session factory a scope takes its session from, if any. *)
Definition maker_for (db : Database.t) (readonly : bool)
    : option sessionmaker :=
  if readonly then Database._session_ro db
  else Some (Database._session db).

(** What the specification promises of a transfer, read on the store the
    call leaves behind. *)
Definition transfer_promise (b1 k b2 k2 : string) (delete_source : bool)
    (w : S3World) : Prop :=
  let out := AWSCloudManager.transfer_object b1 k b2 k2 delete_source
               (AWSCloudManager.__init__ ∅, start w) in
  let left := objects (world out.2.2) in
  is_Some (left !! (b2, k2))
  /\ (if delete_source then left !! (b1, k) = None
      else is_Some (left !! (b1, k))).

(** What the specification says of a body that raises [e] in a scope on
    session [s]: [rollback] is called on [s] and [e] leaves the scope. *)
Definition rolled_back_and_reraised {W} `{External W} {A}
    (db : Database.t) (readonly : bool) (body : OrmSession -> M (Env W) A)
    (env : Env W) (s : OrmSession) (e : exn) : Prop :=
  let out := Database.session db readonly body env in
  In (Ext (Session_rollback s)) (log out.2) /\ out.1 = Raise e.

(** [needle in hay] *)
Fixpoint is_infix (needle hay : string) : bool :=
  String.prefix needle hay
  || match hay with
     | EmptyString => false
     | String _ rest => is_infix needle rest
     end.

(** The message of an exception lists the valid providers. *)
Definition names_valid_providers (e : exn) : bool :=
  is_infix (repr_str_list (List.map CloudProvider_value CloudProvider_members))
           (exn_msg e).

(** The eight ways of writing ["aws"]. *)
Definition casings_of_aws : list string :=
  ["aws"; "awS"; "aWs"; "aWS"; "Aws"; "AwS"; "AWs"; "AWS"]%string.

(** ** Worlds and inputs the properties are tried on *)

(** A world whose listing delivers the pages it holds; every other call
    returns normally. *)
#[export] Instance Paged : External (list Page) :=
  fun c pages =>
    match c return result (ret_ty c) * list Page with
    | S3_paginate _ _ _ _ => (Ok (pages, None), pages)
    | sessionmaker_call _ => (Ok 0, pages)
    | boto3_Session _ | Session_client _ _ _
    | S3_upload_file _ _ _ _ | S3_download_file _ _ _ _
    | S3_copy_object _ _ _ _ | S3_delete_object _ _ _
    | create_engine _ _ | Session_execute _ _
    | Session_commit _ | Session_rollback _ | Session_close _
    | open_write _ _ => (Ok tt, pages)
    end.

(** One object in bucket ["b"], and a local file that happens to be named
    like the bucket. *)
Definition demo_world : S3World :=
  {| objects := {[ ("b", "k") := "remote bytes" ]};
     files := {[ "b" := "local bytes" ]} |}.

Definition demo_client : S3Client :=
  {| client_session := {| session_profile_name := None |};
     client_service_name := "s3";
     client_region_name := Some "us-east-1" |}.

Definition demo_manager : AWSCloudManager.t :=
  AWSCloudManager.set__s3_client (AWSCloudManager.__init__ ∅)
                                 (Some demo_client).

Definition demo_env : Env S3World :=
  {| log := [Ext (boto3_Session None);
             Ext (Session_client {| session_profile_name := None |} "s3"
                                 (Some "us-east-1"))];
     world := demo_world |}.

(** The database of [dl_efs_cleanup]: a write URL and no read-only URL. *)
Definition demo_engine : Engine :=
  {| engine_url := "sqlite:///:memory:"; engine_echo := false |}.

Definition demo_maker : sessionmaker :=
  {| sm_bind := demo_engine; sm_autocommit := false; sm_autoflush := false |}.

Definition demo_db : Database.t :=
  {| Database._db := demo_engine;
     Database._db_ro := None;
     Database._session := demo_maker;
     Database._session_ro := None |}.

Definition demo_session : OrmSession :=
  {| orm_maker := demo_maker; orm_id := 0 |}.

Definition interrupted : exn := Exn KeyboardInterrupt "".

Definition demo_config1 : AWSConfig :=
  {[ "aws_region_name" := Some "eu-west-1";
     "aws_access_key_id" := Some "AKIAFIRST";
     "aws_secret_key_id" := Some "first secret" ]}.

Definition demo_config2 : AWSConfig :=
  {[ "aws_region_name" := Some "eu-west-1";
     "aws_access_key_id" := Some "AKIASECOND";
     "aws_session_token" := Some "second token" ]}.

Definition demo_calls : list operation :=
  [Upload_object "b" "b" "copy";
   Transfer_object "b" "k" "b2" "k2" true;
   List_dir "b" ""].

Definition demo_pages : list Page :=
  [ {[ "Contents" := [ ({[ "Key" := "a/1" ]} : S3Object);
                       ({[ "Key" := "a/2" ]} : S3Object) ] ]};
    ∅;
    {[ "Contents" := [ ({[ "Key" := "a/3" ]} : S3Object) ] ]} ].

(** A world with no network and no disk: every call raises. *)
Definition unreachable : exn :=
  Exn (OtherException "botocore.exceptions.EndpointConnectionError")
      "Could not connect to the endpoint URL".

#[export] Instance Offline : External unit :=
  fun c w => (Raise unreachable, w).

(** The five keys of a [ProviderConfig] built by [Config.provider_config]. *)
Definition provider_config_keys : gset string :=
  {[ "aws_region_name"; "aws_access_key_id"; "aws_secret_key_id";
     "aws_session_token"; "aws_profile_name" ]}.

(** The calls made on the database once it is constructed: asking a
    factory for a session, and the calls on a session. *)
Definition is_session_call (e : event) : bool :=
  match e with
  | Ext (sessionmaker_call _) | Ext (Session_execute _ _)
  | Ext (Session_commit _) | Ext (Session_rollback _)
  | Ext (Session_close _) => true
  | _ => false
  end.

(** * Properties *)

(** ** The S3 client of [AWSCloudManager] *)

Section AWS_facts.
Context {W : Type} `{External W}.

Implicit Types (self : AWSCloudManager.t) (env : Env W).

Lemma call_ext_log (c : call) env :
  log (call_ext c env).2 = (log env ++ [Ext c])%list.
Proof. unfold call_ext. destruct (ext c (world env)); reflexivity. Qed.

Lemma call_ext_world (c : call) env :
  world (call_ext c env).2 = after c (world env).
Proof. unfold call_ext, after. destruct (ext c (world env)); reflexivity. Qed.

Lemma call_ext_result (c : call) env :
  (call_ext c env).1 = (ext c (world env)).1.
Proof. unfold call_ext. destruct (ext c (world env)); reflexivity. Qed.

Lemma extern_eq {T} (c : call) (self : T) env :
  extern c (self, env) = ((call_ext c env).1, (self, (call_ext c env).2)).
Proof. unfold extern, lift_env. destruct (call_ext c env); reflexivity. Qed.

Lemma s3_client_cached self env c :
  AWSCloudManager._s3_client self = Some c ->
  AWSCloudManager.s3_client (self, env) = (Ok c, (self, env)).
Proof.
  intros Hc. unfold AWSCloudManager.s3_client, bind, get_self.
  rewrite Hc. reflexivity.
Qed.

Lemma s3_client_fresh self env :
  AWSCloudManager._s3_client self = None ->
  let c1 := boto3_Session (AWSCloudManager.profile_name self) in
  let c2 := Session_client
              {| session_profile_name := AWSCloudManager.profile_name self |}
              "s3" (AWSCloudManager.region_name self) in
  AWSCloudManager.s3_client (self, env) =
    match (call_ext c1 env).1 with
    | Raise e => (Raise e, (self, (call_ext c1 env).2))
    | Ok _ =>
        let env1 := (call_ext c1 env).2 in
        match (call_ext c2 env1).1 with
        | Raise e => (Raise e, (self, (call_ext c2 env1).2))
        | Ok _ =>
            (Ok (client_of self),
             (AWSCloudManager.set__s3_client self (Some (client_of self)),
              (call_ext c2 env1).2))
        end
    end.
Proof.
  intros Hc. cbn zeta.
  unfold AWSCloudManager.s3_client, bind, get_self. rewrite Hc.
  rewrite extern_eq.
  destruct (call_ext _ env) as [[[]|e] env1]; cbn [fst snd]; [|reflexivity].
  rewrite extern_eq.
  destruct (call_ext _ env1) as [[[]|e] env2]; cbn [fst snd]; reflexivity.
Qed.

(** When the property returns a client, that client is now the cached
    one, and nothing else of the manager changed. *)
Lemma s3_client_Ok self env c self' env' :
  AWSCloudManager.s3_client (self, env) = (Ok c, (self', env')) ->
  self' = AWSCloudManager.set__s3_client self (Some c).
Proof.
  destruct (AWSCloudManager._s3_client self) as [c0|] eqn:Hc.
  - rewrite (s3_client_cached _ _ _ Hc). intros [= <- <- <-].
    destruct self; cbn in *. subst. reflexivity.
  - rewrite (s3_client_fresh _ _ Hc). cbn zeta.
    destruct (call_ext _ env).1; [|discriminate].
    destruct (call_ext _ _).1; [|discriminate].
    intros [= <- <- <-]. reflexivity.
Qed.

Lemma s3_client_Ok_cached self env c self' env' :
  AWSCloudManager.s3_client (self, env) = (Ok c, (self', env')) ->
  AWSCloudManager._s3_client self' = Some c.
Proof. intros Hs. rewrite (s3_client_Ok _ _ _ _ _ Hs). reflexivity. Qed.

(** A failed attempt leaves the manager as it was. *)
Lemma s3_client_Raise self env e self' env' :
  AWSCloudManager.s3_client (self, env) = (Raise e, (self', env')) ->
  self' = self.
Proof.
  destruct (AWSCloudManager._s3_client self) as [c0|] eqn:Hc.
  - rewrite (s3_client_cached _ _ _ Hc). discriminate.
  - rewrite (s3_client_fresh _ _ Hc). cbn zeta.
    destruct (call_ext _ env).1.
    + destruct (call_ext _ _).1; [discriminate|]. intros [= _ <- _]. reflexivity.
    + intros [= _ <- _]. reflexivity.
Qed.
End AWS_facts.

(** ** [move_object] *)

Section Move.
Context {W : Type} `{External W}.

(** C1.  [move_object(b, k, dk, d)], once the manager has its S3 client
    [c], makes these calls and no others: first
    [upload_file(Filename=b, Bucket=k, Key=dk)], the bucket name standing
    where the local path belongs; then, when that call returned and [d] is
    true, what [delete_object(b, k)] does, that is
    [delete_object(Bucket=b, Key=k)]; with [d] false nothing more.  An
    exception of the upload propagates.  No copy is requested. *)
Theorem C1_move_object_calls
    (self : AWSCloudManager.t) (env : Env W) (c : S3Client)
    (self1 : AWSCloudManager.t) (env1 : Env W) (b k dk : string) (d : bool) :
  AWSCloudManager.s3_client (self, env) = (Ok c, (self1, env1)) ->
  let upload := S3_upload_file c b k dk in
  let uploaded := (call_ext upload env1).2 in
  let out := AWSCloudManager.move_object b k dk d (self, env) in
  log out.2.2 =
    log env1 ++ Ext upload ::
      (if returns upload (world env1) && d
       then [Ext (S3_delete_object c b k)] else [])
  /\ List.filter is_copy (log out.2.2) = List.filter is_copy (log env1)
  /\ (returns upload (world env1) = false ->
      out = ((ext upload (world env1)).1, (self1, uploaded)))
  /\ (returns upload (world env1) = true ->
      out = if d then AWSCloudManager.delete_object b k (self1, uploaded)
            else (Ok tt, (self1, uploaded))).
Proof.
  intros Hs upload uploaded out.
  assert (Hc : AWSCloudManager._s3_client self1 = Some c)
    by exact (s3_client_Ok_cached _ _ _ _ _ Hs).
  assert (Hout : out =
    match (ext upload (world env1)).1 with
    | Raise e => (Raise e, (self1, uploaded))
    | Ok _ =>
        if d then AWSCloudManager.delete_object b k (self1, uploaded)
        else (Ok tt, (self1, uploaded))
    end).
  { subst out. unfold AWSCloudManager.move_object,
      AWSCloudManager.upload_object, bind at 1 2.
    rewrite Hs, extern_eq, call_ext_result. fold upload. fold uploaded.
    destruct (ext upload (world env1)).1 as [[]|e]; [destruct d|];
      reflexivity. }
  assert (Hdel : AWSCloudManager.delete_object b k (self1, uploaded) =
    ((call_ext (S3_delete_object c b k) uploaded).1,
     (self1, (call_ext (S3_delete_object c b k) uploaded).2))).
  { unfold AWSCloudManager.delete_object, bind.
    rewrite (s3_client_cached _ _ _ Hc).
    exact (extern_eq (S3_delete_object c b k) self1 uploaded). }
  assert (Hlog : log out.2.2 =
    log env1 ++ Ext upload ::
      (if returns upload (world env1) && d
       then [Ext (S3_delete_object c b k)] else [])).
  { rewrite Hout. unfold returns.
    destruct (ext upload (world env1)).1 as [[]|e]; cbn [is_Ok andb snd].
    - destruct d.
      + rewrite Hdel. cbn [snd]. rewrite call_ext_log. subst uploaded.
        rewrite call_ext_log, <- app_assoc. reflexivity.
      + cbn [snd]. subst uploaded. apply call_ext_log.
    - subst uploaded. apply call_ext_log. }
  split; [exact Hlog|]. split.
  { rewrite Hlog, List.filter_app. cbn [List.filter is_copy].
    destruct (returns upload (world env1) && d); cbn [List.filter is_copy];
      rewrite app_nil_r; reflexivity. }
  unfold returns. split; intros Hr; rewrite Hout;
    destruct (ext upload (world env1)).1 as [[]|e]; cbn in Hr;
    try discriminate; reflexivity.
Qed.
End Move.

(** ** The facade *)

Section Facade.
Context {W : Type} `{External W}.

Implicit Types (cm : CloudManager.t) (env : Env W) (op : operation).

Lemma manager_cached cm env m :
  CloudManager._manager cm = Some m ->
  CloudManager.manager (cm, env) = (Ok (Some m), (cm, env)).
Proof.
  intros Hm. unfold CloudManager.manager, bind, get_self. rewrite Hm.
  reflexivity.
Qed.

Lemma manager_fresh (p : CloudProvider) config env :
  CloudManager.manager (CloudManager.__init__ (PyEnum p) config, env) =
    (Ok (Some (AWSCloudManager.__init__ config)),
     (CloudManager.mk (PyEnum p) config (Some (AWSCloudManager.__init__ config)),
      constructed config env)).
Proof. destruct p. reflexivity. Qed.

Lemma manager_unsupported provider config env :
  provider <> PyEnum AWS ->
  CloudManager.manager (CloudManager.__init__ provider config, env) =
    (Ok None, (CloudManager.__init__ provider config, env)).
Proof.
  intros Hp. unfold CloudManager.manager, bind, get_self. cbn.
  destruct provider as [[]| |]; [congruence|reflexivity|reflexivity].
Qed.

Lemma returning_None_call_method target name
    (m : M (AWSCloudManager.t * Env W) unit) (st : CloudManager.t * Env W) :
  returning_None (CloudManager.call_method target name m) st =
  CloudManager.call_method target name (returning_None m) st.
Proof.
  destruct target as [obj|], st as [cm env]; [|reflexivity].
  unfold returning_None, bind, CloudManager.call_method.
  destruct (m (obj, env)) as [[[]|e] [obj' env']]; reflexivity.
Qed.

(** Every facade method is: evaluate [self.manager], call the method of the
    same name on what it returned. *)
Lemma CloudManager_call_eq op cm env :
  CloudManager_call op (cm, env) =
    match CloudManager.manager (cm, env) with
    | (Ok target, st) =>
        CloudManager.call_method target (method_name op)
                                 (AWSCloudManager_call op) st
    | (Raise e, st) => (Raise e, st)
    end.
Proof.
  destruct op; cbn [CloudManager_call AWSCloudManager_call method_name];
    unfold CloudManager.upload_object, CloudManager.download_object,
      CloudManager.move_object, CloudManager.transfer_object,
      CloudManager.delete_object, CloudManager.list_dir.
  1-5: unfold returning_None at 1; unfold bind at 1 2;
       destruct (CloudManager.manager (cm, env)) as [[target|e] st];
       [|reflexivity];
       match goal with
       | |- context [CloudManager.call_method target ?n ?m st] =>
           pose proof (returning_None_call_method target n m st) as Hrn
       end;
       unfold returning_None at 1 in Hrn; unfold bind at 1 in Hrn;
       exact Hrn.
  unfold bind at 1 2.
  destruct (CloudManager.manager (cm, env)) as [[target|e] st];
    [|reflexivity].
  destruct target as [obj|], st as [cm' env']; [|reflexivity].
  unfold CloudManager.call_method, bind.
  destruct (AWSCloudManager.list_dir _ _ (obj, env')) as [[ks|e] [obj' env'']];
    reflexivity.
Qed.

Lemma CloudManager_call_cached op provider config m env :
  CloudManager_call op (CloudManager.mk provider config (Some m), env) =
    let out := AWSCloudManager_call op (m, env) in
    (out.1, (CloudManager.mk provider config (Some out.2.1), out.2.2)).
Proof.
  rewrite CloudManager_call_eq,
    (manager_cached (CloudManager.mk provider config (Some m)) env m eq_refl).
  cbn [CloudManager.call_method].
  destruct (AWSCloudManager_call op (m, env)) as [r [obj' env']].
  reflexivity.
Qed.

Lemma CloudManager_call_fresh op (p : CloudProvider) config env :
  CloudManager_call op (CloudManager.__init__ (PyEnum p) config, env) =
    let out := AWSCloudManager_call op
                 (AWSCloudManager.__init__ config, constructed config env) in
    (out.1, (CloudManager.mk (PyEnum p) config (Some out.2.1), out.2.2)).
Proof.
  rewrite CloudManager_call_eq, manager_fresh.
  cbn [CloudManager.call_method].
  destruct (AWSCloudManager_call op _) as [r [obj' env']].
  reflexivity.
Qed.

Lemma CloudManager_call_unsupported op provider config env :
  provider <> PyEnum AWS ->
  CloudManager_call op (CloudManager.__init__ provider config, env) =
    (Raise (no_attribute (method_name op)),
     (CloudManager.__init__ provider config, env)).
Proof.
  intros Hp. rewrite CloudManager_call_eq, (manager_unsupported _ _ _ Hp).
  reflexivity.
Qed.
End Facade.

(** ** What a method of [AWSCloudManager] can do to the manager and the log *)

Section Tame.
Context {W : Type} `{External W}.

Implicit Types (self : AWSCloudManager.t) (env : Env W).

Lemma set__s3_client_id self :
  self = AWSCloudManager.set__s3_client self (AWSCloudManager._s3_client self).
Proof. destruct self; reflexivity. Qed.

Lemma tame_ret {A} (a : A) : tame (ret a).
Proof.
  intros self env. exists []. cbn [fst snd ret raise]. rewrite app_nil_r.
  split; [reflexivity|]. split; [constructor|].
  split; [apply set__s3_client_id|].
  intros c Hc. split; [exact Hc|constructor].
Qed.

Lemma tame_raise {A} (e : exn) : tame (raise (A:=A) e).
Proof.
  intros self env. exists []. cbn [fst snd ret raise]. rewrite app_nil_r.
  split; [reflexivity|]. split; [constructor|].
  split; [apply set__s3_client_id|].
  intros c Hc. split; [exact Hc|constructor].
Qed.

Lemma tame_bind {A B} (m : M (AWSCloudManager.t * Env W) A)
    (k : A -> M (AWSCloudManager.t * Env W) B) :
  tame m -> (forall a, tame (k a)) -> tame (bind m k).
Proof.
  intros Hm Hk self env. unfold bind.
  specialize (Hm self env). cbn zeta in Hm.
  destruct (m (self, env)) as [[a|e] [self1 env1]]; cbn [fst snd] in *.
  - destruct Hm as (d1 & Hl1 & Hn1 & Hf1 & Hc1).
    specialize (Hk a self1 env1). cbn zeta in Hk.
    destruct (k a (self1, env1)) as [r [self2 env2]]; cbn [fst snd] in *.
    destruct Hk as (d2 & Hl2 & Hn2 & Hf2 & Hc2).
    exists (d1 ++ d2). split; [rewrite Hl2, Hl1, app_assoc; reflexivity|].
    split; [apply Forall_app_2; assumption|].
    split.
    + rewrite Hf2, Hf1. reflexivity.
    + intros c Hc. destruct (Hc1 c Hc) as [Hc1' Hd1].
      destruct (Hc2 c Hc1') as [Hc2' Hd2].
      split; [exact Hc2'|apply Forall_app_2; assumption].
  - exact Hm.
Qed.

Lemma tame_extern (c : call) :
  is_client_construction (Ext c) = false -> tame (extern c).
Proof.
  intros Hc self env. rewrite extern_eq. cbn [fst snd].
  exists [Ext c]. split; [apply call_ext_log|].
  split; [repeat constructor|].
  split; [apply set__s3_client_id|].
  intros c0 Hc0. split; [exact Hc0|repeat constructor; exact Hc].
Qed.

Lemma tame_s3_client : tame AWSCloudManager.s3_client.
Proof.
  intros self env.
  destruct (AWSCloudManager._s3_client self) as [c0|] eqn:Hc0.
  - rewrite (s3_client_cached _ _ _ Hc0). cbn [fst snd].
    exists []. rewrite app_nil_r.
    split; [reflexivity|]. split; [constructor|].
    split; [apply set__s3_client_id|].
    intros c Hc. split; [congruence|constructor].
  - rewrite (s3_client_fresh _ _ Hc0). cbn zeta.
    set (c1 := boto3_Session _). set (c2 := Session_client _ _ _).
    set (env1 := (call_ext c1 env).2).
    destruct (call_ext c1 env).1 as [[]|e].
    + destruct (call_ext c2 env1).1 as [[]|e]; cbn [fst snd];
        exists [Ext c1; Ext c2];
        (split; [rewrite call_ext_log; subst env1; rewrite call_ext_log,
                   <- app_assoc; reflexivity|]);
        (split; [repeat constructor|]);
        (split; [try reflexivity; apply set__s3_client_id|]);
        intros c Hc; congruence.
    + cbn [fst snd]. exists [Ext c1].
      split; [apply call_ext_log|]. split; [repeat constructor|].
      split; [apply set__s3_client_id|]. intros c Hc; congruence.
Qed.

Lemma tame_AWSCloudManager_call (op : operation) :
  tame (AWSCloudManager_call op).
Proof.
  destruct op; cbn [AWSCloudManager_call];
    unfold returning_None, AWSCloudManager.upload_object,
      AWSCloudManager.download_object, AWSCloudManager.move_object,
      AWSCloudManager.transfer_object, AWSCloudManager.delete_object,
      AWSCloudManager.list_dir, AWSCloudManager.upload_object;
    repeat first
      [ apply tame_s3_client
      | apply tame_ret
      | apply tame_raise
      | apply tame_extern; reflexivity
      | match goal with
        | |- tame (extern ?c) => exact (tame_extern c eq_refl)
        end
      | apply tame_bind
      | match goal with |- forall _, _ => intros ? end
      | match goal with
        | |- tame (if ?d then _ else _) => destruct d
        | |- tame (match ?x with (_, _) => _ end) => destruct x
        | |- tame (match ?x with Some _ => _ | None => _ end) => destruct x
        end
      | unfold AWSCloudManager.delete_object ].
Qed.
End Tame.

(** ** Counting constructions *)

Lemma constructions_app (l1 l2 : list event) :
  constructions (l1 ++ l2) = constructions l1 + constructions l2.
Proof. unfold constructions. rewrite List.filter_app. apply length_app. Qed.

Lemma client_constructions_app (l1 l2 : list event) :
  client_constructions (l1 ++ l2) =
  client_constructions l1 + client_constructions l2.
Proof.
  unfold client_constructions. rewrite List.filter_app. apply length_app.
Qed.

Lemma filter_none {A} (f : A -> bool) (l : list A) :
  Forall (fun x => f x = false) l -> List.filter f l = [].
Proof.
  induction 1 as [|x l Hx _ IH]; [reflexivity|].
  cbn. rewrite Hx. exact IH.
Qed.

Lemma constructions_none (l : list event) :
  Forall (fun e => is_construction e = false) l -> constructions l = 0.
Proof. intros Hl. unfold constructions. rewrite filter_none; auto. Qed.

Lemma client_constructions_none (l : list event) :
  Forall (fun e => is_client_construction e = false) l ->
  client_constructions l = 0.
Proof. intros Hl. unfold client_constructions. rewrite filter_none; auto. Qed.

Section Facade_sequences.
Context {W : Type} `{External W}.

Implicit Types (env : Env W) (op : operation).

(** Once the concrete client is cached, a sequence of calls keeps that
    object in place and constructs nothing. *)
Lemma run_calls_cached provider config (ops : list operation) :
  forall m env,
    let out := run_calls CloudManager_call ops
                 (CloudManager.mk provider config (Some m), env) in
    exists m',
      out.2.1 = CloudManager.mk provider config (Some m')
      /\ m' = AWSCloudManager.set__s3_client m (AWSCloudManager._s3_client m')
      /\ constructions (log out.2.2) = constructions (log env).
Proof.
  induction ops as [|op ops IH]; intros m env; cbn [run_calls].
  - exists m. cbn. auto using set__s3_client_id.
  - rewrite CloudManager_call_cached. cbn zeta.
    destruct (tame_AWSCloudManager_call op m env)
      as (delta & Hlog & Hnone & Hsame & _).
    destruct (AWSCloudManager_call op (m, env)) as [r [m1 env1]].
    cbn [fst snd] in *.
    specialize (IH m1 env1). cbn zeta in IH.
    destruct (run_calls CloudManager_call ops _) as [rs [cm2 env2]].
    cbn [fst snd] in *.
    destruct IH as (m' & Hcm & Hm' & Hcount).
    exists m'. split; [exact Hcm|]. split.
    + rewrite Hm', Hsame. reflexivity.
    + rewrite Hcount, Hlog, constructions_app, (constructions_none _ Hnone).
      lia.
Qed.

Lemma run_calls_unsupported provider config (ops : list operation) env :
  provider <> PyEnum AWS ->
  run_calls CloudManager_call ops (CloudManager.__init__ provider config, env)
  = (List.map (fun op => Raise (no_attribute (method_name op))) ops,
     (CloudManager.__init__ provider config, env)).
Proof.
  intros Hp. induction ops as [|op ops IH]; cbn [run_calls List.map].
  - reflexivity.
  - rewrite (CloudManager_call_unsupported _ _ _ _ Hp), IH. reflexivity.
Qed.

(** C4.  A [CloudManager] whose provider is anything but
    [CloudProvider.AWS] never constructs a concrete client: every call of
    every method raises [AttributeError] for the method name on [None],
    and leaves the manager ([_manager] still [None]), the log and the world
    as they were; no external call is made. *)
Theorem C4_unsupported_provider provider config (ops : list operation) env :
  provider <> PyEnum AWS ->
  let out := run_calls CloudManager_call ops
               (CloudManager.__init__ provider config, env) in
  out.1 = List.map (fun op => Raise (no_attribute (method_name op))) ops
  /\ Forall (fun r => exists e, r = Raise e /\ exn_cls e = AttributeError) out.1
  /\ CloudManager._manager out.2.1 = None
  /\ out.2.2 = env
  /\ constructions (log out.2.2) = constructions (log env).
Proof.
  intros Hp out. subst out. rewrite (run_calls_unsupported _ _ _ _ Hp).
  cbn [fst snd]. split; [reflexivity|]. split.
  - apply Forall_forall. intros r Hr. apply list_elem_of_In in Hr.
    apply List.in_map_iff in Hr. destruct Hr as (op & <- & _).
    eexists. split; reflexivity.
  - auto.
Qed.

(** C6.  A facade method on a manager whose concrete client [m] is cached
    gives the outcome, the log and the world that the method of the same
    name with the same arguments gives on [m], and [m] as that call left
    it stays cached.  On a fresh manager with provider AWS the same holds
    for the client constructed from the stored configuration. *)
Theorem C6_facade_forwards provider (p : CloudProvider) config m op env :
  CloudManager_call op (CloudManager.mk provider config (Some m), env) =
    (let out := AWSCloudManager_call op (m, env) in
     (out.1, (CloudManager.mk provider config (Some out.2.1), out.2.2)))
  /\ CloudManager_call op (CloudManager.__init__ (PyEnum p) config, env) =
    (let out := AWSCloudManager_call op
                  (AWSCloudManager.__init__ config, constructed config env) in
     (out.1, (CloudManager.mk (PyEnum p) config (Some out.2.1), out.2.2))).
Proof.
  split; [apply CloudManager_call_cached|apply CloudManager_call_fresh].
Qed.
End Facade_sequences.

Section Lazy.
Context {W : Type} `{External W}.

Implicit Types (env : Env W) (op : operation).

(** C5.  Neither object builds its client when it is constructed.  The
    first facade call constructs one [AWSCloudManager], from the stored
    configuration and before anything else happens, and caches it; however
    many calls follow, that object stays cached and none is constructed
    again.  An [AWSCloudManager] with no S3 client asks boto3 for a session
    with its profile name and then for an ["s3"] client with its region
    name, and caches the client it gets; with a client cached, every
    method keeps it and asks for no other. *)
Theorem C5_clients_lazy_and_cached (p : CloudProvider) config op
    (ops : list operation) env :
  let cm0 := CloudManager.__init__ (PyEnum p) config in
  let first := CloudManager_call op (cm0, env) in
  let later := run_calls CloudManager_call ops first.2 in
  (CloudManager._manager cm0 = None
   /\ AWSCloudManager._s3_client (AWSCloudManager.__init__ config) = None)
  /\ (exists m delta,
        CloudManager._manager first.2.1 = Some m
        /\ m = AWSCloudManager.set__s3_client
                 (AWSCloudManager.__init__ config)
                 (AWSCloudManager._s3_client m)
        /\ log first.2.2 = log env ++ New_AWSCloudManager config :: delta
        /\ constructions delta = 0)
  /\ (exists m',
        CloudManager._manager later.2.1 = Some m'
        /\ m' = AWSCloudManager.set__s3_client
                  (AWSCloudManager.__init__ config)
                  (AWSCloudManager._s3_client m')
        /\ constructions (log later.2.2) = constructions (log env) + 1)
  /\ (forall self0 env1,
        let self := AWSCloudManager.set__s3_client self0 None in
        let out := AWSCloudManager.s3_client (self, env1) in
        let asked := boto3_Session (AWSCloudManager.profile_name self) in
        let asked' := Session_client
                        {| session_profile_name :=
                             AWSCloudManager.profile_name self |}
                        "s3" (AWSCloudManager.region_name self) in
        match out.1 with
        | Ok c =>
            c = client_of self
            /\ AWSCloudManager._s3_client out.2.1 = Some c
            /\ log out.2.2 = log env1 ++ [Ext asked; Ext asked']
        | Raise _ =>
            AWSCloudManager._s3_client out.2.1 = None
            /\ (log out.2.2 = log env1 ++ [Ext asked]
                \/ log out.2.2 = log env1 ++ [Ext asked; Ext asked'])
        end)
  /\ (forall self0 c op1 env1,
        let self := AWSCloudManager.set__s3_client self0 (Some c) in
        let out := AWSCloudManager_call op1 (self, env1) in
        AWSCloudManager._s3_client out.2.1 = Some c
        /\ client_constructions (log out.2.2) =
           client_constructions (log env1)).
Proof.
  intros cm0 first later.
  split; [split; reflexivity|].
  assert (Hfirst : exists m delta,
    first.2.1 = CloudManager.mk (PyEnum p) config (Some m)
    /\ m = AWSCloudManager.set__s3_client (AWSCloudManager.__init__ config)
             (AWSCloudManager._s3_client m)
    /\ log first.2.2 = log env ++ New_AWSCloudManager config :: delta
    /\ constructions delta = 0).
  { subst first cm0. rewrite CloudManager_call_fresh. cbn zeta.
    destruct (tame_AWSCloudManager_call op (AWSCloudManager.__init__ config)
                (constructed config env))
      as (delta & Hlog & Hnone & Hsame & _).
    destruct (AWSCloudManager_call op _) as [r [m1 env1]].
    cbn [fst snd] in *. exists m1, delta.
    split; [reflexivity|]. split; [exact Hsame|]. split.
    - rewrite Hlog. cbn [constructed log]. rewrite <- app_assoc. reflexivity.
    - apply constructions_none, Hnone. }
  destruct Hfirst as (m & delta & Hcm & Hm & Hlog & Hzero).
  split.
  { exists m, delta. rewrite Hcm. auto. }
  split.
  { subst later. destruct first.2 as [cm1 env1] eqn:Hst.
    cbn [fst snd] in Hcm, Hlog. subst cm1.
    destruct (run_calls_cached (PyEnum p) config ops m env1)
      as (m' & Hcm' & Hm' & Hcount).
    exists m'. rewrite Hcm'. split; [reflexivity|]. split.
    - rewrite Hm', Hm. reflexivity.
    - rewrite Hcount, Hlog, constructions_app.
      change (New_AWSCloudManager config :: delta)
        with ([New_AWSCloudManager config] ++ delta).
      rewrite constructions_app, Hzero. cbn. lia. }
  split.
  - intros self0 env1 self out asked asked'. subst out.
    rewrite (s3_client_fresh self env1 eq_refl). cbn zeta.
    fold asked. fold asked'.
    destruct (call_ext asked env1).1 as [[]|e] eqn:H1.
    + destruct (call_ext asked' (call_ext asked env1).2).1 as [[]|e] eqn:H2;
        cbn [fst snd];
        rewrite !call_ext_log, <- app_assoc; cbn [app].
      * auto.
      * split; [reflexivity|right; reflexivity].
    + cbn [fst snd]. rewrite call_ext_log.
      split; [reflexivity|left; reflexivity].
  - intros self0 c op1 env1 self out. subst out.
    destruct (tame_AWSCloudManager_call op1 self env1)
      as (d1 & Hlog1 & _ & _ & Hkeep).
    destruct (Hkeep c eq_refl) as [Hc' Hd1]. split; [exact Hc'|].
    rewrite Hlog1, client_constructions_app,
      (client_constructions_none _ Hd1). lia.
Qed.
End Lazy.

(** ** The credential fields *)

Section Credentials.
Context {W : Type} `{External W}.

Implicit Types (env : Env W) (op : operation).

Lemma blind_ret {A} (a : A) : blind (ret a).
Proof. intros m1 m2 env Hm. cbn. auto. Qed.

Lemma blind_raise {A} (e : exn) : blind (raise (A:=A) e).
Proof. intros m1 m2 env Hm. cbn. auto. Qed.

Lemma blind_bind {A B} (m : M (AWSCloudManager.t * Env W) A)
    (k : A -> M (AWSCloudManager.t * Env W) B) :
  blind m -> (forall a, blind (k a)) -> blind (bind m k).
Proof.
  intros Hm Hk m1 m2 env Hsame. unfold bind.
  destruct (Hm m1 m2 env Hsame) as (Hr & He & Hs).
  destruct (m (m1, env)) as [r1 [s1 env1]], (m (m2, env)) as [r2 [s2 env2]].
  cbn [fst snd] in *. subst r2 env2.
  destruct r1 as [a|e]; [apply Hk; exact Hs|]. cbn. auto.
Qed.

Lemma blind_extern (c : call) : blind (extern c).
Proof.
  intros m1 m2 env Hsame. rewrite !extern_eq. cbn. auto.
Qed.

Lemma blind_s3_client : blind AWSCloudManager.s3_client.
Proof.
  intros m1 m2 env Hsame. pose proof Hsame as (Hr & Hp & Hc).
  destruct (AWSCloudManager._s3_client m1) as [c|] eqn:Hc1.
  - rewrite (s3_client_cached m1 env c Hc1).
    rewrite (s3_client_cached m2 env c (eq_sym Hc)). cbn. auto.
  - rewrite (s3_client_fresh m1 env Hc1).
    rewrite (s3_client_fresh m2 env (eq_sym Hc)). cbn zeta.
    unfold client_of. rewrite <- Hr, <- Hp.
    destruct (call_ext _ env).1 as [[]|e]; [|cbn; auto].
    destruct (call_ext _ _).1 as [[]|e]; cbn; [|auto].
    repeat split; assumption.
Qed.

Lemma blind_AWSCloudManager_call op : blind (AWSCloudManager_call op).
Proof.
  destruct op; cbn [AWSCloudManager_call];
    unfold returning_None, AWSCloudManager.upload_object,
      AWSCloudManager.download_object, AWSCloudManager.move_object,
      AWSCloudManager.transfer_object, AWSCloudManager.delete_object,
      AWSCloudManager.list_dir, AWSCloudManager.upload_object;
    repeat first
      [ apply blind_s3_client
      | apply blind_ret
      | apply blind_raise
      | apply blind_extern
      | match goal with
        | |- blind (extern ?c) => exact (blind_extern c)
        end
      | apply blind_bind
      | match goal with |- forall _, _ => intros ? end
      | match goal with
        | |- blind (if ?d then _ else _) => destruct d
        | |- blind (match ?x with (_, _) => _ end) => destruct x
        | |- blind (match ?x with Some _ => _ | None => _ end) => destruct x
        end
      | unfold AWSCloudManager.delete_object ].
Qed.

Lemma blind_run_calls (ops : list operation) :
  forall m1 m2 env,
    same_but_credentials m1 m2 ->
    (run_calls AWSCloudManager_call ops (m1, env)).1 =
    (run_calls AWSCloudManager_call ops (m2, env)).1
    /\ (run_calls AWSCloudManager_call ops (m1, env)).2.2 =
       (run_calls AWSCloudManager_call ops (m2, env)).2.2
    /\ same_but_credentials
         (run_calls AWSCloudManager_call ops (m1, env)).2.1
         (run_calls AWSCloudManager_call ops (m2, env)).2.1.
Proof.
  induction ops as [|op ops IH]; intros m1 m2 env Hsame; cbn [run_calls].
  - cbn. auto.
  - destruct (blind_AWSCloudManager_call op m1 m2 env Hsame) as (Hr & He & Hs).
    destruct (AWSCloudManager_call op (m1, env)) as [r1 [s1 env1]].
    destruct (AWSCloudManager_call op (m2, env)) as [r2 [s2 env2]].
    cbn [fst snd] in *. subst r2 env2.
    destruct (IH s1 s2 env1 Hs) as (Hr' & He' & Hs').
    destruct (run_calls AWSCloudManager_call ops (s1, env1)) as [rs1 [t1 e1]].
    destruct (run_calls AWSCloudManager_call ops (s2, env1)) as [rs2 [t2 e2]].
    cbn [fst snd] in *. subst rs2 e2. auto.
Qed.

(** C9.  Two configurations that agree on ["aws_profile_name"] and
    ["aws_region_name"] give managers that no sequence of method calls
    tells apart, whatever their access key, secret key and session token:
    every call has the same outcome, the same external calls are made with
    the same arguments (so none carries a credential), the world ends the
    same, and the same S3 client is cached. *)
Theorem C9_credentials_never_passed (config1 config2 : AWSConfig)
    (ops : list operation) env :
  config1 !! "aws_profile_name" = config2 !! "aws_profile_name" ->
  config1 !! "aws_region_name" = config2 !! "aws_region_name" ->
  let out1 := run_calls AWSCloudManager_call ops
                (AWSCloudManager.__init__ config1, env) in
  let out2 := run_calls AWSCloudManager_call ops
                (AWSCloudManager.__init__ config2, env) in
  out1.1 = out2.1
  /\ log out1.2.2 = log out2.2.2
  /\ world out1.2.2 = world out2.2.2
  /\ AWSCloudManager._s3_client out1.2.1 = AWSCloudManager._s3_client out2.2.1.
Proof.
  intros Hp Hr out1 out2.
  assert (Hsame : same_but_credentials (AWSCloudManager.__init__ config1)
                                       (AWSCloudManager.__init__ config2)).
  { unfold same_but_credentials, AWSCloudManager.__init__,
      AWSCloudManager.dict_get, AWSCloudManager.dict_get_default.
    cbn. rewrite Hp, Hr. auto. }
  destruct (blind_run_calls ops _ _ env Hsame) as (H1 & H2 & H3).
  fold out1 out2 in H1, H2, H3.
  split; [exact H1|]. rewrite H2.
  split; [reflexivity|]. split; [reflexivity|apply H3].
Qed.
End Credentials.

(** ** [list_dir] *)

Lemma yield_keys_well_keyed (objs : list S3Object) :
  forallb has_Key objs = true ->
  AWSCloudManager.yield_keys objs =
    (omap (fun obj : S3Object => obj !! "Key") objs, None).
Proof.
  induction objs as [|obj objs IH]; [reflexivity|].
  cbn [forallb AWSCloudManager.yield_keys]. unfold has_Key at 1.
  intros Hk. apply andb_prop in Hk. destruct Hk as [Hobj Hobjs].
  change (omap (fun o : S3Object => o !! "Key") (obj :: objs))
    with (match obj !! "Key" with
          | Some k => k :: omap (fun o : S3Object => o !! "Key") objs
          | None => omap (fun o : S3Object => o !! "Key") objs
          end).
  destruct (obj !! "Key") as [k|]; [|discriminate].
  rewrite (IH Hobjs). reflexivity.
Qed.

Lemma yield_pages_well_keyed (pages : list Page) (stop : option exn) :
  forallb well_keyed pages = true ->
  AWSCloudManager.yield_pages pages stop =
    (List.concat (List.map listed_keys pages), stop).
Proof.
  induction pages as [|page pages IH]; [reflexivity|].
  cbn [forallb AWSCloudManager.yield_pages List.map List.concat].
  intros Hk. apply andb_prop in Hk. destruct Hk as [Hpage Hpages].
  unfold well_keyed in Hpage.
  rewrite (yield_keys_well_keyed _ Hpage), (IH Hpages).
  f_equal. f_equal. unfold listed_keys.
  destruct (page !! "Contents"); reflexivity.
Qed.

Lemma yield_pages_no_Contents (page : Page) (pages : list Page)
    (stop : option exn) :
  page !! "Contents" = None ->
  AWSCloudManager.yield_pages (page :: pages) stop =
  AWSCloudManager.yield_pages pages stop.
Proof.
  intros Hnone. cbn [AWSCloudManager.yield_pages]. rewrite Hnone. cbn.
  destruct (AWSCloudManager.yield_pages pages stop). reflexivity.
Qed.

Section Listing.
Context {W : Type} `{External W}.

(** C10.  When the paginator delivers [pages] without failing and every
    listed object has its key, [list_dir] yields the keys listed under
    ["Contents"] on each page, page after page in the order delivered, and
    nothing else.  A page without a ["Contents"] entry is skipped by the
    loop: it adds no key and raises nothing. *)
Theorem C10_list_dir_keys
    (self : AWSCloudManager.t) (env : Env W) (c : S3Client)
    (self1 : AWSCloudManager.t) (env1 : Env W) (b p : string)
    (pages : list Page) (w' : W) :
  AWSCloudManager.s3_client (self, env) = (Ok c, (self1, env1)) ->
  ext (S3_paginate c "list_objects_v2" b p) (world env1)
    = (Ok (pages, None), w') ->
  forallb well_keyed pages = true ->
  AWSCloudManager.list_dir b p (self, env) =
    (Ok (List.concat (List.map listed_keys pages)),
     (self1, {| log := log env1
                       ++ [Ext (S3_paginate c "list_objects_v2" b p)];
                world := w' |}))
  /\ (forall page rest stop,
        page !! "Contents" = None ->
        listed_keys page = []
        /\ AWSCloudManager.yield_pages (page :: rest) stop =
           AWSCloudManager.yield_pages rest stop).
Proof.
  intros Hs Hext Hkeys. split.
  - unfold AWSCloudManager.list_dir, bind at 1. rewrite Hs.
    unfold bind. rewrite extern_eq. unfold call_ext.
    change (@ext W H) with (@ext W _).
    destruct (ext (S3_paginate c "list_objects_v2" b p) (world env1))
      as [r w] eqn:Hcall.
    injection Hext as -> ->. cbn [fst snd].
    rewrite (yield_pages_well_keyed _ _ Hkeys). reflexivity.
  - intros page rest stop Hnone. split.
    + unfold listed_keys. rewrite Hnone. reflexivity.
    + apply yield_pages_no_Contents, Hnone.
Qed.
End Listing.

(** ** [Database.session] *)

Section Sessions.
Context {W : Type} `{External W}.

Implicit Types (env : Env W) (db : Database.t).

Lemma init_without_readonly_url write_url readonly_url env0 db env1 :
  truthy readonly_url = false ->
  Database.__init__ write_url readonly_url env0 = (Ok db, env1) ->
  Database._db_ro db = None /\ Database._session_ro db = None.
Proof.
  intros Hf. unfold Database.__init__, bind at 1.
  destruct (Database.new_engine write_url env0) as [[e|x] env']; [|discriminate].
  unfold bind.
  destruct readonly_url as [url|]; [rewrite Hf|]; cbn;
    intros [= <- _]; auto.
Qed.

(** C2.  A [Database] built without a read-only URL ([None] or the empty
    string) has no read-only engine and no read-only session factory, and
    entering [session(readonly=True)] on it raises the [RuntimeError]
    "Readonly connection not configured ..." at once: the scope body is
    not run, no external call is made (no session is asked of either
    factory, the write one included), and the log and the world are
    exactly as before. *)
Theorem C2_readonly_not_configured
    (write_url : string) (readonly_url : option string) env0 db env1
    {A} (body : OrmSession -> M (Env W) A) env :
  truthy readonly_url = false ->
  Database.__init__ write_url readonly_url env0 = (Ok db, env1) ->
  Database._db_ro db = None
  /\ Database._session_ro db = None
  /\ Database.session db true body env = (Raise Database.not_configured, env)
  /\ exn_cls Database.not_configured = RuntimeError.
Proof.
  intros Hf Hinit.
  destruct (init_without_readonly_url _ _ _ _ _ Hf Hinit) as [Hdb Hro].
  repeat split; try assumption.
  unfold Database.session, bind. rewrite Hro. reflexivity.
Qed.

Lemma session_acquired db readonly maker {A}
    (body : OrmSession -> M (Env W) A) env s env1 :
  maker_for db readonly = Some maker ->
  Database.new_session maker env = (Ok s, env1) ->
  Database.session db readonly body env =
    try_finally
      (try_except_Exception
         (let* a := body s in
          let* _ := call_ext (Session_commit s) in
          ret a)
         (fun e =>
            let* _ := call_ext (Session_rollback s) in
            raise e))
      (call_ext (Session_close s)) env1.
Proof.
  unfold maker_for. intros Hm Hnew.
  unfold Database.session. unfold bind at 1.
  destruct readonly.
  - rewrite Hm, Hnew. reflexivity.
  - injection Hm as <-. cbn [negb]. rewrite Hnew. reflexivity.
Qed.

Lemma try_finally_close {A} (m : M (Env W) A) (s : OrmSession) env :
  try_finally m (call_ext (Session_close s)) env =
    (match (ext (Session_close s) (world (m env).2)).1 with
     | Ok _ => (m env).1
     | Raise z => Raise z
     end,
     (call_ext (Session_close s) (m env).2).2).
Proof.
  unfold try_finally, call_ext.
  destruct (m env) as [r env']. cbn [fst snd].
  destruct (ext (Session_close s) (world env')) as [[v|z] w']; reflexivity.
Qed.

Lemma call_ext_eq (c : call) env :
  call_ext c env =
    ((ext c (world env)).1,
     {| log := log env ++ [Ext c]; world := after c (world env) |}).
Proof. unfold call_ext, after. destruct (ext c (world env)); reflexivity. Qed.
End Sessions.

Section Session_scope.
Context {W : Type} `{External W}.

Implicit Types (env : Env W) (db : Database.t).

(** C3.  Once the scope has its session [s], what follows the body is
    decided by how the body ended.
    - It returned [a]: [commit] is called; if it returns, [close] is
      called and, [close] returning, the scope ends normally with [a]; if
      [commit] raises an [Exception], [rollback] and then [close] are
      called.
    - It raised [e], an [Exception]: [rollback] is called (and [commit]
      is not), then [close]; when both return, [e] itself leaves the
      scope.
    - It raised [e] outside the [Exception] hierarchy ([KeyboardInterrupt],
      [SystemExit]): only [close] is called; when it returns, [e] leaves
      the scope.
    On every path [close] is the last call made, and it is made once. *)
Theorem C3_session_scope db readonly maker {A}
    (body : OrmSession -> M (Env W) A) env s env1 :
  maker_for db readonly = Some maker ->
  Database.new_session maker env = (Ok s, env1) ->
  let inner := body s env1 in
  let out := Database.session db readonly body env in
  let commit := Session_commit s in
  let rollback := Session_rollback s in
  let close := Session_close s in
  let w := world inner.2 in
  (exists calls,
      log out.2 = log inner.2 ++ calls ++ [Ext close]
      /\ ~ In (Ext close) calls)
  /\ match inner.1 with
     | Ok a =>
         match (ext commit w).1 with
         | Ok _ =>
             log out.2 = log inner.2 ++ [Ext commit; Ext close]
             /\ (returns close (after commit w) = true -> out.1 = Ok a)
         | Raise x =>
             log out.2 =
               log inner.2 ++ Ext commit ::
                 (if isinstance_Exception x then [Ext rollback] else [])
                 ++ [Ext close]
             /\ is_Ok out.1 = false
         end
     | Raise e =>
         if isinstance_Exception e then
           log out.2 = log inner.2 ++ [Ext rollback; Ext close]
           /\ (returns rollback w = true ->
               returns close (after rollback w) = true ->
               out.1 = Raise e)
         else
           log out.2 = log inner.2 ++ [Ext close]
           /\ (returns close w = true -> out.1 = Raise e)
     end.
Proof.
  intros Hm Hnew inner out commit rollback close w.
  subst out. rewrite (session_acquired _ _ _ body _ _ _ Hm Hnew).
  rewrite try_finally_close.
  subst commit rollback close.
  set (mid := try_except_Exception _ _ env1).
  assert (Hmid : mid =
    match inner.1 with
    | Ok a =>
        match (ext (Session_commit s) w).1 with
        | Ok _ => (Ok a, (call_ext (Session_commit s) inner.2).2)
        | Raise x =>
            if isinstance_Exception x then
              (match (ext (Session_rollback s) (after (Session_commit s) w)).1 with
               | Ok _ => Raise x
               | Raise y => Raise y
               end,
               (call_ext (Session_rollback s) (call_ext (Session_commit s) inner.2).2).2)
            else (Raise x, (call_ext (Session_commit s) inner.2).2)
        end
    | Raise e =>
        if isinstance_Exception e then
          (match (ext (Session_rollback s) w).1 with
           | Ok _ => Raise e
           | Raise y => Raise y
           end,
           (call_ext (Session_rollback s) inner.2).2)
        else (Raise e, inner.2)
    end).
  { subst mid. unfold try_except_Exception, bind, ret, raise.
    fold inner. subst w. destruct inner as [[a|e] env2]; cbn [fst snd].
    - rewrite !(call_ext_eq (Session_commit s) env2). cbn [fst snd].
      destruct (ext (Session_commit s) (world env2)).1 as [[]|x]; [reflexivity|].
      destruct (isinstance_Exception x); [|reflexivity].
      rewrite !call_ext_eq. cbn [fst snd world].
      destruct (ext (Session_rollback s) _).1 as [[]|y]; reflexivity.
    - destruct (isinstance_Exception e); [|reflexivity].
      rewrite !call_ext_eq. cbn [fst snd].
      destruct (ext (Session_rollback s) _).1 as [[]|y]; reflexivity. }
  clearbody mid. subst mid. subst w.
  destruct inner as [[a|e] env2]; cbn [fst snd].
  - destruct (ext (Session_commit s) (world env2)).1 as [[]|x] eqn:Hcommit.
    + cbn [fst snd]. rewrite !call_ext_log.
      split.
      * exists [Ext (Session_commit s)]. rewrite <- !app_assoc. split; [reflexivity|].
        intros [Hin|[]]. discriminate Hin.
      * rewrite <- app_assoc. split; [reflexivity|].
        rewrite call_ext_world. unfold returns.
        destruct (ext (Session_close s) _).1 as [[]|z]; [reflexivity|discriminate].
    + destruct (isinstance_Exception x) eqn:Hx; cbn [fst snd];
        rewrite !call_ext_log.
      * split.
        -- exists [Ext (Session_commit s); Ext (Session_rollback s)]. rewrite <- !app_assoc.
           split; [reflexivity|].
           intros [Hin|[Hin|[]]]; discriminate Hin.
        -- rewrite <- !app_assoc. split; [reflexivity|].
           destruct (ext (Session_close s) _).1 as [[]|z];
             [destruct (ext (Session_rollback s) _).1 as [[]|y]|]; reflexivity.
      * split.
        -- exists [Ext (Session_commit s)]. rewrite <- !app_assoc. split; [reflexivity|].
           intros [Hin|[]]; discriminate Hin.
        -- rewrite <- !app_assoc. split; [reflexivity|].
           destruct (ext (Session_close s) _).1 as [[]|z]; reflexivity.
  - destruct (isinstance_Exception e) eqn:He; cbn [fst snd];
      rewrite ?call_ext_log.
    + split.
      * exists [Ext (Session_rollback s)]. rewrite <- !app_assoc. split; [reflexivity|].
        intros [Hin|[]]; discriminate Hin.
      * rewrite <- !app_assoc. split; [reflexivity|].
        rewrite call_ext_world. unfold returns. intros Hrb Hcl.
        destruct (ext (Session_close s) _).1 as [[]|z]; [|discriminate].
        destruct (ext (Session_rollback s) _).1 as [[]|y]; [reflexivity|discriminate].
    + split.
      * exists []. split; [reflexivity|intros []].
      * split; [reflexivity|]. unfold returns. intros Hcl.
        destruct (ext (Session_close s) _).1 as [[]|z]; [reflexivity|discriminate].
Qed.
End Session_scope.

(** ** [transfer_object] on the object store *)

Lemma split_copy_source_join (b k : string) :
  no_slash b = true ->
  split_copy_source (b ++ "/" ++ k)%string = (b, k).
Proof.
  induction b as [|ch b IH]; intros Hb; [reflexivity|].
  cbn [no_slash] in Hb. apply andb_prop in Hb. destruct Hb as [Hch Hb].
  change (String ch b ++ "/" ++ k)%string
    with (String ch (b ++ "/" ++ k)%string).
  cbn [split_copy_source].
  destruct (Ascii.eqb ch "/"); [discriminate|].
  rewrite (IH Hb). reflexivity.
Qed.

(** C7.  On the object store, for a source bucket name without a slash, an
    object [data] at (b1, k) and a destination (b2, k2) other than the
    source: [transfer_object] asks S3 for one copy, with
    [Bucket=b2, Key=k2, CopySource="b1/k"], then, when [delete_source] is
    true, for the deletion of (b1, k), and for nothing else; it returns
    normally; afterwards [data] is at (b2, k2), and (b1, k) is absent when
    [delete_source] is true and still holds [data] when it is false; every
    other object and every local file is untouched. *)
Theorem C7_transfer_object
    (self : AWSCloudManager.t) (env : Env S3World) (c : S3Client)
    (self1 : AWSCloudManager.t) (env1 : Env S3World)
    (b1 k b2 k2 : string) (delete_source : bool) (data : string) :
  AWSCloudManager.s3_client (self, env) = (Ok c, (self1, env1)) ->
  no_slash b1 = true ->
  objects (world env1) !! (b1, k) = Some data ->
  (b1, k) <> (b2, k2) ->
  let out := AWSCloudManager.transfer_object b1 k b2 k2 delete_source
               (self, env) in
  let final := world out.2.2 in
  out.1 = Ok tt
  /\ log out.2.2 =
       log env1 ++ Ext (S3_copy_object c b2 k2 (b1 ++ "/" ++ k)%string) ::
         (if delete_source then [Ext (S3_delete_object c b1 k)] else [])
  /\ objects final !! (b2, k2) = Some data
  /\ objects final !! (b1, k) = (if delete_source then None else Some data)
  /\ (forall a, a <> (b2, k2) -> a <> (b1, k) ->
        objects final !! a = objects (world env1) !! a)
  /\ files final = files (world env1).
Proof.
  intros Hs Hslash Hdata Hne out final.
  assert (Hc : AWSCloudManager._s3_client self1 = Some c)
    by exact (s3_client_Ok_cached _ _ _ _ _ Hs).
  set (copy := S3_copy_object c b2 k2 (b1 ++ "/" ++ k)%string).
  set (copied :=
    {| log := log env1 ++ [Ext copy];
       world := set_objects (world env1)
                  (<[ (b2, k2) := data ]> (objects (world env1))) |}).
  assert (Hcopy : call_ext copy env1 = (Ok tt, copied)).
  { rewrite call_ext_eq. unfold after, copied, copy.
    unfold ext, S3Model. cbn [fst snd].
    rewrite (split_copy_source_join _ _ Hslash).
    destruct (decide ((b1, k) = (b2, k2))) as [Heq|_]; [contradiction|].
    rewrite Hdata. reflexivity. }
  assert (Hout : out =
    (Ok tt,
     (self1,
      if delete_source then
        {| log := log copied ++ [Ext (S3_delete_object c b1 k)];
           world := set_objects (world copied)
                      (delete (b1, k) (objects (world copied))) |}
      else copied))).
  { subst out. unfold AWSCloudManager.transfer_object, bind at 1.
    rewrite Hs. unfold bind at 1. fold copy.
    rewrite (extern_eq copy), Hcopy. cbn [fst snd].
    destruct delete_source; [|reflexivity].
    unfold AWSCloudManager.delete_object, bind.
    rewrite (s3_client_cached _ _ _ Hc).
    rewrite (extern_eq (S3_delete_object c b1 k)), call_ext_eq.
    reflexivity. }
  subst final. rewrite Hout. cbn [fst snd].
  split; [reflexivity|].
  destruct delete_source; cbn [log world objects files set_objects copied].
  - split; [rewrite <- app_assoc; reflexivity|].
    split.
    { rewrite lookup_delete_ne by congruence. apply lookup_insert_eq. }
    split; [apply lookup_delete_eq|]. split; [|reflexivity].
    intros a Ha2 Ha1.
    rewrite lookup_delete_ne by congruence.
    apply lookup_insert_ne. congruence.
  - split; [reflexivity|].
    split; [apply lookup_insert_eq|].
    split.
    { rewrite lookup_insert_ne by congruence. exact Hdata. }
    split; [|reflexivity].
    intros a Ha2 Ha1. apply lookup_insert_ne. congruence.
Qed.

(** ** The provider selector *)

Lemma is_infix_app_r (needle s t : string) :
  is_infix needle t = true -> is_infix needle (s ++ t)%string = true.
Proof.
  intros Ht. induction s as [|ch s IH]; [exact Ht|].
  change (String ch s ++ t)%string with (String ch (s ++ t)%string).
  change (is_infix needle (String ch (s ++ t)%string))
    with (String.prefix needle (String ch (s ++ t)%string)
          || is_infix needle (s ++ t)%string).
  rewrite IH. apply orb_true_r.
Qed.

Lemma lower_ascii_inv (ch : ascii) :
  (lower_ascii ch = "a"%char -> ch = "a"%char \/ ch = "A"%char)
  /\ (lower_ascii ch = "w"%char -> ch = "w"%char \/ ch = "W"%char)
  /\ (lower_ascii ch = "s"%char -> ch = "s"%char \/ ch = "S"%char).
Proof.
  destruct ch as [[] [] [] [] [] [] [] []]; vm_compute;
    repeat split; intros Heq; try discriminate Heq; auto.
Qed.

Lemma lower_is_aws (name : string) :
  lower name = "aws"%string <-> In name casings_of_aws.
Proof.
  split.
  - destruct name as [|c1 [|c2 [|c3 [|c4 rest]]]]; cbn [lower];
      try discriminate.
    intros [= H1 H2 H3].
    apply (proj1 (lower_ascii_inv c1)) in H1.
    apply (proj1 (proj2 (lower_ascii_inv c2))) in H2.
    apply (proj2 (proj2 (lower_ascii_inv c3))) in H3.
    destruct H1 as [-> | ->], H2 as [-> | ->], H3 as [-> | ->];
      cbn; tauto.
  - intros Hin. cbn in Hin.
    repeat (destruct Hin as [<- | Hin]; [reflexivity|]). destruct Hin.
Qed.

Section Selector.
Context {W : Type} `{External W}.

(** C8.  The [cloud_provider] property:
    - with the variable unset or empty it raises [ValueError] with the
      message "CLOUD_PROVIDER environment variable is not set";
    - with a name that lowers to ["aws"], which is one of the eight
      casings of ["aws"] and nothing else, it returns [CloudProvider.AWS];
    - with any other name it raises [ValueError] with the message
      "Invalid cloud provider: <name>. Valid providers: ['aws']".
    When the property raises, [main] stops at the construction of the
    [CloudManager]: the file has been written and nothing else was called,
    no method of a cloud manager included. *)
Theorem C8_provider_selector (config : Config.t) (db : Database.t)
    (env : Env W) :
  Config.cloud_provider config =
    match Config._provider_name config with
    | None => Raise Config.not_set
    | Some name =>
        if String.eqb name "" then Raise Config.not_set
        else if String.eqb (lower name) "aws" then Ok AWS
        else Raise (Config.invalid_provider name)
    end
  /\ (forall name, String.eqb (lower name) "aws" = true
                   <-> In name casings_of_aws)
  /\ (exn_cls Config.not_set = ValueError
      /\ exn_msg Config.not_set
         = "CLOUD_PROVIDER environment variable is not set"%string)
  /\ (forall name,
        exn_cls (Config.invalid_provider name) = ValueError
        /\ exn_msg (Config.invalid_provider name)
           = ("Invalid cloud provider: " ++ name
              ++ ". Valid providers: ['aws']")%string
        /\ names_valid_providers (Config.invalid_provider name) = true)
  /\ match Config.cloud_provider config with
     | Ok _ => True
     | Raise e =>
         let out := dl_archiver.main config db env in
         is_Ok out.1 = false
         /\ log out.2 = log env ++ [Ext (open_write "test.txt" "Hello, world!")]
     end.
Proof.
  split.
  { unfold Config.cloud_provider.
    destruct (Config._provider_name config) as [name|]; [|reflexivity].
    cbn [truthy]. destruct (String.eqb name ""); cbn [negb]; [reflexivity|].
    unfold CloudProvider_by_value. cbn [CloudProvider_members List.find
      CloudProvider_value].
    rewrite String.eqb_sym.
    destruct (String.eqb (lower name) "aws"); reflexivity. }
  split.
  { intros name. rewrite String.eqb_eq. apply lower_is_aws. }
  split; [split; reflexivity|].
  split.
  { intros name. split; [reflexivity|]. split; [reflexivity|].
    unfold names_valid_providers, Config.invalid_provider. cbn [exn_msg].
    apply is_infix_app_r, is_infix_app_r. reflexivity. }
  destruct (Config.cloud_provider config) as [p|e] eqn:Hcp; [exact I|].
  intros out.
  assert (Hout : out =
    (match (ext (open_write "test.txt" "Hello, world!") (world env)).1 with
     | Ok _ => Raise e
     | Raise x => Raise x
     end,
     (call_ext (open_write "test.txt" "Hello, world!") env).2)).
  { subst out. unfold dl_archiver.main, bind at 1.
    rewrite !call_ext_eq. cbn [fst snd].
    destruct (ext (open_write "test.txt" "Hello, world!") (world env)).1
      as [[]|x]; [|reflexivity].
    unfold bind at 1, dl_archiver.lift_result. rewrite Hcp. reflexivity. }
  rewrite Hout. cbn [fst snd]. rewrite call_ext_log.
  split; [|reflexivity].
  destruct (ext (open_write "test.txt" "Hello, world!") (world env)).1
    as [[]|x]; reflexivity.
Qed.
End Selector.

(** ** The properties at work *)

Lemma C1_move_object_calls_witness :
  AWSCloudManager.s3_client (AWSCloudManager.__init__ ∅, start demo_world)
    = (Ok demo_client, (demo_manager, demo_env))
  /\ log (AWSCloudManager.move_object "b" "k" "dk" true
            (AWSCloudManager.__init__ ∅, start demo_world)).2.2
     = log demo_env
       ++ [Ext (S3_upload_file demo_client "b" "k" "dk");
           Ext (S3_delete_object demo_client "b" "k")].
Proof.
  assert (Hs : AWSCloudManager.s3_client
                 (AWSCloudManager.__init__ ∅, start demo_world)
               = (Ok demo_client, (demo_manager, demo_env)))
    by reflexivity.
  split; [exact Hs|].
  exact (proj1 (C1_move_object_calls _ _ _ _ _ "b" "k" "dk" true Hs)).
Defined.

Lemma C2_readonly_not_configured_witness :
  truthy None = false
  /\ Database.__init__ (W:=nat) "sqlite:///:memory:" None (start 0)
     = (Ok demo_db,
        {| log := [Ext (create_engine "sqlite:///:memory:" false)];
           world := 0 |})
  /\ Database.session (W:=nat) demo_db true
       (fun s => call_ext (Session_execute s dl_archiver.update_stmt))
       (start 0)
     = (Raise Database.not_configured, start 0).
Proof.
  assert (Hf : truthy None = false) by reflexivity.
  assert (Hinit : Database.__init__ (W:=nat) "sqlite:///:memory:" None (start 0)
                  = (Ok demo_db,
                     {| log := [Ext (create_engine "sqlite:///:memory:" false)];
                        world := 0 |})) by reflexivity.
  split; [exact Hf|]. split; [exact Hinit|].
  exact (proj1 (proj2 (proj2
    (C2_readonly_not_configured _ _ _ _ _
       (fun s => call_ext (Session_execute s dl_archiver.update_stmt))
       (start 0) Hf Hinit)))).
Defined.

Lemma C3_session_scope_witness :
  maker_for demo_db false = Some demo_maker
  /\ Database.new_session (W:=nat) demo_maker (start 0)
     = (Ok demo_session,
        {| log := [Ext (sessionmaker_call demo_maker)]; world := 1 |})
  /\ log (Database.session (W:=nat) demo_db false
            (fun _ => raise (A:=unit) (Exn ValueError "boom")) (start 0)).2
     = [Ext (sessionmaker_call demo_maker);
        Ext (Session_rollback demo_session);
        Ext (Session_close demo_session)]
  /\ (Database.session (W:=nat) demo_db false
            (fun _ => raise (A:=unit) (Exn ValueError "boom")) (start 0)).1
     = Raise (Exn ValueError "boom").
Proof.
  assert (Hm : maker_for demo_db false = Some demo_maker) by reflexivity.
  assert (Hnew : Database.new_session (W:=nat) demo_maker (start 0)
                 = (Ok demo_session,
                    {| log := [Ext (sessionmaker_call demo_maker)];
                       world := 1 |})) by reflexivity.
  split; [exact Hm|]. split; [exact Hnew|].
  pose proof (proj2 (C3_session_scope demo_db false demo_maker
    (fun _ => raise (A:=unit) (Exn ValueError "boom")) (start 0) _ _ Hm Hnew))
    as [Hlog Hout].
  split; [exact Hlog|]. apply Hout; reflexivity.
Defined.

Lemma C3_keyboard_interrupt_not_rolled_back :
  ~ rolled_back_and_reraised (W:=nat) demo_db false
      (fun _ => raise (A:=unit) interrupted) (start 0)
      demo_session interrupted.
Proof.
  unfold rolled_back_and_reraised. intros [Hin _].
  vm_compute in Hin.
  repeat (destruct Hin as [Hin|Hin]; [discriminate Hin|]).
  exact Hin.
Qed.

Lemma C4_unsupported_provider_witness :
  PyStr "azure" <> PyEnum AWS
  /\ (run_calls (S:=CloudManager.t * Env nat) CloudManager_call
        [Upload_object "test.txt" "test-bucket" "test.txt";
         List_dir "test-bucket" ""]
        (CloudManager.__init__ (PyStr "azure") ∅, start 0)).1
     = [Raise (no_attribute "upload_object"); Raise (no_attribute "list_dir")]
  /\ (run_calls (S:=CloudManager.t * Env nat) CloudManager_call
        [Upload_object "test.txt" "test-bucket" "test.txt";
         List_dir "test-bucket" ""]
        (CloudManager.__init__ (PyStr "azure") ∅, start 0)).2.2
     = start 0.
Proof.
  assert (Hp : PyStr "azure" <> PyEnum AWS) by discriminate.
  split; [exact Hp|].
  pose proof (C4_unsupported_provider (W:=nat) (PyStr "azure") ∅
    [Upload_object "test.txt" "test-bucket" "test.txt";
     List_dir "test-bucket" ""] (start 0) Hp) as (Hr & _ & _ & Henv & _).
  split; [exact Hr|exact Henv].
Defined.

Lemma C7_transfer_object_witness :
  (AWSCloudManager.s3_client (AWSCloudManager.__init__ ∅, start demo_world)
     = (Ok demo_client, (demo_manager, demo_env))
   /\ no_slash "b" = true
   /\ objects (world demo_env) !! ("b", "k") = Some "remote bytes"
   /\ ("b", "k") <> ("b2", "k2"))
  /\ (let out := AWSCloudManager.transfer_object "b" "k" "b2" "k2" true
                   (AWSCloudManager.__init__ ∅, start demo_world) in
      out.1 = Ok tt
      /\ objects (world out.2.2) !! ("b2", "k2") = Some "remote bytes"
      /\ objects (world out.2.2) !! ("b", "k") = None).
Proof.
  assert (Hs : AWSCloudManager.s3_client
                 (AWSCloudManager.__init__ ∅, start demo_world)
               = (Ok demo_client, (demo_manager, demo_env)))
    by reflexivity.
  assert (Hslash : no_slash "b" = true) by reflexivity.
  assert (Hdata : objects (world demo_env) !! ("b", "k") = Some "remote bytes")
    by (vm_compute; reflexivity).
  assert (Hne : ("b", "k") <> ("b2", "k2")) by discriminate.
  split; [auto|].
  pose proof (C7_transfer_object _ _ _ _ _ "b" "k" "b2" "k2" true
                "remote bytes" Hs Hslash Hdata Hne)
    as (Hr & _ & Hdest & Hsrc & _).
  cbv zeta. auto.
Defined.

Lemma C7_transfer_onto_itself :
  ~ transfer_promise "b" "k" "b" "k" true demo_world.
Proof.
  unfold transfer_promise. cbv zeta. intros [_ Habsent].
  vm_compute in Habsent. discriminate Habsent.
Qed.

Lemma C8_unset_selector_names_no_provider :
  ~ exists e,
      Config.cloud_provider (Config.__init__ ∅) = Raise e
      /\ names_valid_providers e = true.
Proof.
  intros (e & He & Hnames).
  assert (Hcp : Config.cloud_provider (Config.__init__ ∅)
                = Raise Config.not_set) by reflexivity.
  rewrite Hcp in He. injection He as <-.
  vm_compute in Hnames. discriminate Hnames.
Qed.

Lemma C9_credentials_never_passed_witness :
  (demo_config1 !! "aws_profile_name" = demo_config2 !! "aws_profile_name"
   /\ demo_config1 !! "aws_region_name" = demo_config2 !! "aws_region_name"
   /\ demo_config1 !! "aws_access_key_id" <> demo_config2 !! "aws_access_key_id")
  /\ (run_calls (S:=AWSCloudManager.t * Env S3World) AWSCloudManager_call
        demo_calls (AWSCloudManager.__init__ demo_config1, start demo_world)).1
     = (run_calls (S:=AWSCloudManager.t * Env S3World) AWSCloudManager_call
        demo_calls (AWSCloudManager.__init__ demo_config2, start demo_world)).1
  /\ log (run_calls (S:=AWSCloudManager.t * Env S3World) AWSCloudManager_call
        demo_calls (AWSCloudManager.__init__ demo_config1, start demo_world)).2.2
     = log (run_calls (S:=AWSCloudManager.t * Env S3World) AWSCloudManager_call
        demo_calls (AWSCloudManager.__init__ demo_config2, start demo_world)).2.2.
Proof.
  assert (Hp : demo_config1 !! "aws_profile_name"
               = demo_config2 !! "aws_profile_name")
    by (vm_compute; reflexivity).
  assert (Hr : demo_config1 !! "aws_region_name"
               = demo_config2 !! "aws_region_name")
    by (vm_compute; reflexivity).
  split.
  { split; [exact Hp|]. split; [exact Hr|]. vm_compute. discriminate. }
  pose proof (C9_credentials_never_passed demo_config1 demo_config2
                demo_calls (start demo_world) Hp Hr) as (H1 & H2 & _).
  split; [exact H1|exact H2].
Defined.

Lemma C10_list_dir_keys_witness :
  (AWSCloudManager.s3_client (W:=list Page)
     (demo_manager, start demo_pages)
     = (Ok demo_client, (demo_manager, start demo_pages))
   /\ ext (S3_paginate demo_client "list_objects_v2" "b" "a/") demo_pages
      = (Ok (demo_pages, None), demo_pages)
   /\ forallb well_keyed demo_pages = true)
  /\ (AWSCloudManager.list_dir (W:=list Page) "b" "a/"
        (demo_manager, start demo_pages)).1
     = Ok ["a/1"; "a/2"; "a/3"]%string.
Proof.
  assert (Hs : AWSCloudManager.s3_client (W:=list Page)
                 (demo_manager, start demo_pages)
               = (Ok demo_client, (demo_manager, start demo_pages)))
    by reflexivity.
  assert (Hext : ext (S3_paginate demo_client "list_objects_v2" "b" "a/")
                     (world (start demo_pages))
                 = (Ok (demo_pages, None), demo_pages)) by reflexivity.
  assert (Hkeys : forallb well_keyed demo_pages = true)
    by (vm_compute; reflexivity).
  split; [auto|].
  rewrite (proj1 (C10_list_dir_keys _ _ _ _ _ "b" "a/" _ _ Hs Hext Hkeys)).
  vm_compute. reflexivity.
Defined.

(** ** The two programs, run *)

(** [dl_efs_cleanup]: one session from the write factory, the statement,
    [commit], [close]. *)
Example dl_efs_cleanup_main_runs :
  dl_efs_cleanup.main (W:=nat) demo_db (start 0)
  = (Ok tt,
     {| log := [Ext (sessionmaker_call demo_maker);
                Ext (Session_execute demo_session
                                     dl_efs_cleanup.select_stmt);
                Ext (Session_commit demo_session);
                Ext (Session_close demo_session)];
        world := 1 |}).
Proof. reflexivity. Qed.

(** [dl_archiver] with [CLOUD_PROVIDER=AWS] and no read-only URL: the file
    is written and uploaded, then the read-only scope refuses to open. *)
Example dl_archiver_main_without_readonly_url :
  let config := Config.__init__ {[ "CLOUD_PROVIDER" := "AWS" ]} in
  (dl_archiver.main (W:=nat) config demo_db (start 0)).1
    = Raise Database.not_configured
  /\ List.map (fun e => match e with
                        | Ext (S3_upload_file _ f b k) => Some (f, b, k)
                        | _ => None
                        end)
              (log (dl_archiver.main (W:=nat) config demo_db (start 0)).2)
     = [None; None; None; None; Some ("test.txt", "test-bucket", "test.txt")].
Proof. vm_compute. split; reflexivity. Qed.

(** * Further properties *)

(** ** From the environment to the manager *)

(** X1.  The configuration that [Config.provider_config] builds holds its
    five keys and no other, and the manager built from it stores each field
    of the [Config] as it is: the region is never [None] and the default of
    [AWSCloudManager.__init__] is never used on this path; from the
    environment, the region is [AWS_REGION] or ["us-east-1"], and the other
    four fields are the variables or [None]. *)
Theorem X1_config_reaches_manager (config : Config.t)
    (environ : gmap string string) :
  let m := AWSCloudManager.__init__ (Config.provider_config config) in
  let m' := AWSCloudManager.__init__
              (Config.provider_config (Config.__init__ environ)) in
  dom (Config.provider_config config) = provider_config_keys
  /\ (AWSCloudManager.region_name m = Some (Config.aws_region_name config)
      /\ AWSCloudManager.profile_name m = Config.aws_profile_name config
      /\ AWSCloudManager.access_key_id m = Config.aws_access_key_id config
      /\ AWSCloudManager.secret_key_id m = Config.aws_secret_key_id config
      /\ AWSCloudManager.session_token m = Config.aws_session_token config
      /\ AWSCloudManager._s3_client m = None)
  /\ (AWSCloudManager.region_name m'
        = Some (default "us-east-1"%string (environ !! "AWS_REGION"))
      /\ AWSCloudManager.profile_name m' = environ !! "AWS_PROFILE_NAME"
      /\ AWSCloudManager.access_key_id m' = environ !! "AWS_ACCESS_KEY_ID"
      /\ AWSCloudManager.secret_key_id m' = environ !! "AWS_SECRET_KEY_ID"
      /\ AWSCloudManager.session_token m' = environ !! "AWS_SESSION_TOKEN").
Proof.
  assert (Hfields : forall cfg : Config.t,
    let m := AWSCloudManager.__init__ (Config.provider_config cfg) in
    AWSCloudManager.region_name m = Some (Config.aws_region_name cfg)
    /\ AWSCloudManager.profile_name m = Config.aws_profile_name cfg
    /\ AWSCloudManager.access_key_id m = Config.aws_access_key_id cfg
    /\ AWSCloudManager.secret_key_id m = Config.aws_secret_key_id cfg
    /\ AWSCloudManager.session_token m = Config.aws_session_token cfg
    /\ AWSCloudManager._s3_client m = None).
  { intros cfg. cbn zeta.
    unfold AWSCloudManager.__init__, AWSCloudManager.dict_get,
      AWSCloudManager.dict_get_default, Config.provider_config.
    cbn [AWSCloudManager.region_name AWSCloudManager.profile_name
         AWSCloudManager.access_key_id AWSCloudManager.secret_key_id
         AWSCloudManager.session_token AWSCloudManager._s3_client].
    repeat split; simplify_map_eq; reflexivity. }
  cbn zeta. split.
  { unfold Config.provider_config, provider_config_keys.
    rewrite !dom_insert_L, dom_empty_L. set_solver. }
  split; [apply Hfields|].
  destruct (Hfields (Config.__init__ environ)) as (Hr & Hp & Ha & Hs & Ht & _).
  rewrite Hr, Hp, Ha, Hs, Ht. repeat split; reflexivity.
Qed.

(** ** The calls of [transfer_object], [upload_object], [download_object]
       and [delete_object] *)

Section Calls.
Context {W : Type} `{External W}.

(** X2.  Whatever the world does, [transfer_object], once the manager has
    its client, asks for the copy with
    [Bucket=dest_bucket_name, Key=dest_object_key,
     CopySource="bucket_name/object_key"] and then, only if the copy
    returned and [delete_source] is true, for the deletion of the source.
    When the copy raises, its exception leaves the method and the source is
    not deleted. *)
Theorem X2_transfer_object_calls
    (self : AWSCloudManager.t) (env : Env W) (c : S3Client)
    (self1 : AWSCloudManager.t) (env1 : Env W)
    (b k db dk : string) (d : bool) :
  AWSCloudManager.s3_client (self, env) = (Ok c, (self1, env1)) ->
  let copy := S3_copy_object c db dk (b ++ "/" ++ k)%string in
  let copied := (call_ext copy env1).2 in
  let out := AWSCloudManager.transfer_object b k db dk d (self, env) in
  log out.2.2 =
    log env1 ++ Ext copy ::
      (if returns copy (world env1) && d
       then [Ext (S3_delete_object c b k)] else [])
  /\ (returns copy (world env1) = false ->
      out = ((ext copy (world env1)).1, (self1, copied)))
  /\ (returns copy (world env1) = true ->
      out = if d then AWSCloudManager.delete_object b k (self1, copied)
            else (Ok tt, (self1, copied))).
Proof.
  intros Hs copy copied out.
  assert (Hc : AWSCloudManager._s3_client self1 = Some c)
    by exact (s3_client_Ok_cached _ _ _ _ _ Hs).
  assert (Hout : out =
    match (ext copy (world env1)).1 with
    | Raise e => (Raise e, (self1, copied))
    | Ok _ =>
        if d then AWSCloudManager.delete_object b k (self1, copied)
        else (Ok tt, (self1, copied))
    end).
  { subst out. unfold AWSCloudManager.transfer_object, bind at 1.
    rewrite Hs. unfold bind at 1. fold copy.
    rewrite (extern_eq copy), call_ext_result. fold copied.
    destruct (ext copy (world env1)).1 as [[]|e]; [destruct d|];
      reflexivity. }
  assert (Hdel : AWSCloudManager.delete_object b k (self1, copied) =
    ((call_ext (S3_delete_object c b k) copied).1,
     (self1, (call_ext (S3_delete_object c b k) copied).2))).
  { unfold AWSCloudManager.delete_object, bind.
    rewrite (s3_client_cached _ _ _ Hc).
    exact (extern_eq (S3_delete_object c b k) self1 copied). }
  split.
  { rewrite Hout. unfold returns.
    destruct (ext copy (world env1)).1 as [[]|e]; cbn [is_Ok andb snd].
    - destruct d.
      + rewrite Hdel. cbn [snd]. rewrite call_ext_log. subst copied.
        rewrite call_ext_log, <- app_assoc. reflexivity.
      + cbn [snd]. subst copied. apply call_ext_log.
    - subst copied. apply call_ext_log. }
  unfold returns. split; intros Hr; rewrite Hout;
    destruct (ext copy (world env1)).1 as [[]|e]; cbn in Hr;
    try discriminate; reflexivity.
Qed.

(** X3.  No method of [AWSCloudManager] does anything without a client:
    when the [s3_client] property raises (boto3 refuses the session or the
    client), every method raises that same exception, makes no further
    call, and leaves the manager without a cached client, so that the next
    call asks boto3 again. *)
Theorem X3_no_client_no_call
    (op : operation) (self : AWSCloudManager.t) (env : Env W) (e : exn)
    (self' : AWSCloudManager.t) (env' : Env W) :
  AWSCloudManager.s3_client (self, env) = (Raise e, (self', env')) ->
  AWSCloudManager_call op (self, env) = (Raise e, (self, env'))
  /\ AWSCloudManager._s3_client self = None.
Proof.
  intros Hs.
  assert (Hself : self' = self) by exact (s3_client_Raise _ _ _ _ _ Hs).
  subst self'. split.
  - destruct op; cbn [AWSCloudManager_call];
      unfold returning_None, AWSCloudManager.upload_object,
        AWSCloudManager.download_object, AWSCloudManager.move_object,
        AWSCloudManager.transfer_object, AWSCloudManager.delete_object,
        AWSCloudManager.list_dir, AWSCloudManager.upload_object, bind;
      rewrite Hs; reflexivity.
  - destruct (AWSCloudManager._s3_client self) as [c|] eqn:Hc; [|reflexivity].
    rewrite (s3_client_cached _ _ _ Hc) in Hs. discriminate Hs.
Qed.

(** X4.  [upload_object], [download_object] and [delete_object] each make
    one call, [upload_file(Filename, Bucket, Key)],
    [download_file(Bucket, Key, Filename)] and
    [delete_object(Bucket, Key)], and hand back its outcome as it is: an
    exception of the SDK leaves the method unchanged, and the call is not
    made again. *)
Theorem X4_one_call_outcome_unchanged
    (self : AWSCloudManager.t) (env : Env W) (c : S3Client)
    (self1 : AWSCloudManager.t) (env1 : Env W) (f b k : string) :
  AWSCloudManager.s3_client (self, env) = (Ok c, (self1, env1)) ->
  let after_call (call : call) : AWSCloudManager.t * Env W :=
    (self1, {| log := log env1 ++ [Ext call];
               world := after call (world env1) |}) in
  AWSCloudManager.upload_object f b k (self, env)
    = ((ext (S3_upload_file c f b k) (world env1)).1,
       after_call (S3_upload_file c f b k))
  /\ AWSCloudManager.download_object b k f (self, env)
    = ((ext (S3_download_file c b k f) (world env1)).1,
       after_call (S3_download_file c b k f))
  /\ AWSCloudManager.delete_object b k (self, env)
    = ((ext (S3_delete_object c b k) (world env1)).1,
       after_call (S3_delete_object c b k)).
Proof.
  intros Hs after_call. subst after_call.
  unfold AWSCloudManager.upload_object, AWSCloudManager.download_object,
    AWSCloudManager.delete_object, bind.
  rewrite Hs.
  rewrite (extern_eq (S3_upload_file c f b k)),
    (extern_eq (S3_download_file c b k f)),
    (extern_eq (S3_delete_object c b k)), !call_ext_eq.
  auto.
Qed.
End Calls.

(** ** [Database]: engines, factories and the outcome of a scope *)

Section Database_more.
Context {W : Type} `{External W}.

Implicit Types (env : Env W) (db : Database.t).

Lemma new_engine_eq (url : string) env :
  Database.new_engine url env =
    (match (ext (create_engine url false) (world env)).1 with
     | Ok _ => Ok {| engine_url := url; engine_echo := false |}
     | Raise e => Raise e
     end,
     {| log := log env ++ [Ext (create_engine url false)];
        world := after (create_engine url false) (world env) |}).
Proof.
  unfold Database.new_engine, bind. rewrite call_ext_eq.
  destruct (ext (create_engine url false) (world env)).1 as [[]|e];
    reflexivity.
Qed.

(** X5.  [Database(write_url, readonly_url)] creates the write engine
    first and then, only when that succeeded and [readonly_url] is a
    non-empty string, the read-only engine, both with [echo=False]; an
    empty [readonly_url] does what [None] does.  The object it returns has
    its write factory bound to the engine of [write_url], a read-only
    engine and factory exactly when [readonly_url] is non-empty (the factory
    bound to the engine of that URL), and [autocommit] and [autoflush] off
    in both factories. *)
Theorem X5_database_engines (write_url : string)
    (readonly_url : option string) env :
  let out := Database.__init__ write_url readonly_url env in
  let first := create_engine write_url false in
  let url := default ""%string readonly_url in
  log out.2 =
    log env ++ Ext first ::
      (if returns first (world env) && truthy readonly_url
       then [Ext (create_engine url false)] else [])
  /\ Database.__init__ write_url (Some ""%string) env
     = Database.__init__ write_url None env
  /\ match out.1 with
     | Raise _ => True
     | Ok db =>
         Database._db db = {| engine_url := write_url; engine_echo := false |}
         /\ Database._session db =
              {| sm_bind := Database._db db;
                 sm_autocommit := false; sm_autoflush := false |}
         /\ Database._db_ro db =
              (if truthy readonly_url
               then Some {| engine_url := url; engine_echo := false |}
               else None)
         /\ Database._session_ro db =
              (if truthy readonly_url
               then Some {| sm_bind := {| engine_url := url;
                                          engine_echo := false |};
                            sm_autocommit := false; sm_autoflush := false |}
               else None)
     end.
Proof.
  cbn zeta. split; [|split].
  - unfold Database.__init__, bind at 1. rewrite new_engine_eq.
    unfold returns.
    destruct (ext (create_engine write_url false) (world env)).1 as [[]|e];
      cbn [is_Ok andb snd log]; [|reflexivity].
    unfold bind. destruct readonly_url as [u|]; cbn [default].
    + destruct (truthy (Some u)).
      * unfold bind. rewrite new_engine_eq. cbn [log].
        destruct (ext (create_engine u false) _).1 as [[]|e]; cbn [snd log];
          rewrite <- app_assoc; reflexivity.
      * reflexivity.
    + reflexivity.
  - reflexivity.
  - unfold Database.__init__, bind at 1. rewrite new_engine_eq.
    destruct (ext (create_engine write_url false) (world env)).1 as [[]|e];
      [|exact I].
    unfold bind. destruct readonly_url as [u|]; cbn [default].
    + destruct (truthy (Some u)).
      * unfold bind. rewrite new_engine_eq.
        destruct (ext (create_engine u false) _).1 as [[]|e]; cbn;
          [repeat split|exact I].
      * cbn. repeat split.
    + cbn. repeat split.
Qed.

Lemma init_factories (write_url : string) (readonly_url : option string)
    env0 db env1 :
  Database.__init__ write_url readonly_url env0 = (Ok db, env1) ->
  Database._session db =
    Database.new_sessionmaker
      {| engine_url := write_url; engine_echo := false |}
  /\ Database._session_ro db =
    (if truthy readonly_url
     then Some (Database.new_sessionmaker
                  {| engine_url := default ""%string readonly_url;
                     engine_echo := false |})
     else None).
Proof.
  unfold Database.__init__, bind at 1.
  rewrite new_engine_eq.
  destruct (ext (create_engine write_url false) (world env0)).1 as [[]|e];
    [|discriminate].
  unfold bind. destruct readonly_url as [u|]; cbn [default].
  - destruct (truthy (Some u)).
    + unfold bind. rewrite new_engine_eq.
      destruct (ext (create_engine u false) _).1 as [[]|e];
        [|discriminate].
      intros [= <- _]. split; reflexivity.
    + intros [= <- _]. split; reflexivity.
  - intros [= <- _]. split; reflexivity.
Qed.

(** X6.  On a [Database] that its constructor returned, the body of a
    scope is only ever run on a session whose factory is bound to the
    engine of the URL that [readonly] selects: the read-only URL for
    [session(readonly=True)], the write URL otherwise.  Two bodies that
    agree on such sessions give the same scope. *)
Theorem X6_sessions_routed (write_url : string) (readonly_url : option string)
    env0 db env1 (readonly : bool) {A}
    (body body' : OrmSession -> M (Env W) A) env :
  Database.__init__ write_url readonly_url env0 = (Ok db, env1) ->
  (forall s : OrmSession,
     engine_url (sm_bind (orm_maker s)) =
       (if readonly then default ""%string readonly_url else write_url) ->
     body s = body' s) ->
  Database.session db readonly body env
  = Database.session db readonly body' env.
Proof.
  intros Hinit Hbody.
  destruct (init_factories _ _ _ _ _ Hinit) as [Hw Hro].
  unfold Database.session, bind at 1. unfold bind at 3.
  assert (Hnew : forall mk,
    engine_url (sm_bind mk) =
      (if readonly then default ""%string readonly_url else write_url) ->
    forall k k' : OrmSession -> M (Env W) A,
    (forall s, orm_maker s = mk -> k s = k' s) ->
    match Database.new_session mk env with
    | (Ok s, env') => k s env'
    | (Raise e, env') => (Raise e, env')
    end =
    match Database.new_session mk env with
    | (Ok s, env') => k' s env'
    | (Raise e, env') => (Raise e, env')
    end).
  { intros mk Hmk k k' Hk. unfold Database.new_session, bind.
    destruct (call_ext (sessionmaker_call mk) env) as [[id|e] env'];
      [|reflexivity].
    cbn. rewrite Hk; reflexivity. }
  destruct readonly.
  - rewrite Hro. destruct (truthy readonly_url); [|reflexivity].
    apply Hnew; [reflexivity|]. intros s Hs.
    rewrite (Hbody s); [reflexivity|]. rewrite Hs. reflexivity.
  - cbn [negb]. apply Hnew; [rewrite Hw; reflexivity|]. intros s Hs.
    rewrite (Hbody s); [reflexivity|]. rewrite Hs, Hw. reflexivity.
Qed.

(** X7.  When the session factory raises, entering the scope raises that
    exception: the body is not run and none of [commit], [rollback] and
    [close] is called, there being no session to call them on. *)
Theorem X7_no_session_no_scope db (readonly : bool) (maker : sessionmaker)
    {A} (body : OrmSession -> M (Env W) A) env (e : exn) :
  maker_for db readonly = Some maker ->
  (ext (sessionmaker_call maker) (world env)).1 = Raise e ->
  Database.session db readonly body env =
    (Raise e,
     {| log := log env ++ [Ext (sessionmaker_call maker)];
        world := after (sessionmaker_call maker) (world env) |}).
Proof.
  unfold maker_for. intros Hm He.
  assert (Hnew : Database.new_session maker env =
    (Raise e,
     {| log := log env ++ [Ext (sessionmaker_call maker)];
        world := after (sessionmaker_call maker) (world env) |})).
  { unfold Database.new_session, bind. rewrite call_ext_eq, He. reflexivity. }
  unfold Database.session, bind at 1.
  destruct readonly.
  - rewrite Hm, Hnew. reflexivity.
  - injection Hm as <-. cbn [negb]. rewrite Hnew. reflexivity.
Qed.
End Database_more.

Section Scope_outcome.
Context {W : Type} `{External W}.

Implicit Types (env : Env W) (db : Database.t).

(** X8.  How a scope on session [s] ends.  An exception of [close]
    replaces whatever came before it, also the value of a body whose
    transaction was committed; else an exception of [rollback] replaces the
    exception that caused the rollback; else the exception of the body or
    of [commit] leaves the scope.  The scope returns normally exactly when
    the body, [commit] and [close] all returned, and then with the value of
    the body. *)
Theorem X8_scope_outcome db (readonly : bool) (maker : sessionmaker) {A}
    (body : OrmSession -> M (Env W) A) env (s : OrmSession) env1 :
  maker_for db readonly = Some maker ->
  Database.new_session maker env = (Ok s, env1) ->
  let inner := body s env1 in
  let out := Database.session db readonly body env in
  let commit := Session_commit s in
  let rollback := Session_rollback s in
  let close := Session_close s in
  let w := world inner.2 in
  let closing (r : result A) (w' : W) : result A :=
    match (ext close w').1 with Ok _ => r | Raise z => Raise z end in
  let undoing (x : exn) (w' : W) : result A :=
    closing (match (ext rollback w').1 with
             | Ok _ => Raise x
             | Raise y => Raise y
             end)
            (after rollback w') in
  out.1 =
    match inner.1 with
    | Ok a =>
        match (ext commit w).1 with
        | Ok _ => closing (Ok a) (after commit w)
        | Raise x =>
            if isinstance_Exception x then undoing x (after commit w)
            else closing (Raise x) (after commit w)
        end
    | Raise e =>
        if isinstance_Exception e then undoing e w else closing (Raise e) w
    end
  /\ forall a : A,
       out.1 = Ok a <->
       inner.1 = Ok a
       /\ returns commit w = true
       /\ returns close (after commit w) = true.
Proof.
  intros Hm Hnew inner out commit rollback close w closing undoing.
  assert (Hout : out.1 =
    match inner.1 with
    | Ok a =>
        match (ext commit w).1 with
        | Ok _ => closing (Ok a) (after commit w)
        | Raise x =>
            if isinstance_Exception x then undoing x (after commit w)
            else closing (Raise x) (after commit w)
        end
    | Raise e =>
        if isinstance_Exception e then undoing e w else closing (Raise e) w
    end).
  { subst out. rewrite (session_acquired _ _ _ body _ _ _ Hm Hnew).
    rewrite try_finally_close. cbn [fst].
    subst closing undoing commit rollback close. cbn beta.
    unfold try_except_Exception, bind, ret, raise. fold inner. subst w.
    destruct inner as [[a|e] env2]; cbn [fst snd].
    - rewrite !(call_ext_eq (Session_commit s) env2). cbn [fst snd].
      destruct (ext (Session_commit s) (world env2)).1 as [[]|x];
        cbn [fst snd world]; [reflexivity|].
      destruct (isinstance_Exception x); [|reflexivity].
      rewrite !call_ext_eq. cbn [fst snd world].
      destruct (ext (Session_rollback s) _).1 as [[]|y]; reflexivity.
    - destruct (isinstance_Exception e); [|reflexivity].
      rewrite !call_ext_eq. cbn [fst snd world].
      destruct (ext (Session_rollback s) _).1 as [[]|y]; reflexivity. }
  split; [exact Hout|].
  intros a. rewrite Hout. subst closing undoing. cbn beta. unfold returns.
  destruct inner.1 as [a'|e].
  - destruct (ext commit w).1 as [[]|x].
    + destruct (ext close (after commit w)).1 as [[]|z]; cbn [is_Ok];
        split; try (intros [= ->]; auto); intros (Ha & Hc & Hz);
        congruence.
    + split; [|intros (_ & Hc & _); discriminate Hc].
      destruct (isinstance_Exception x);
        [destruct (ext rollback _).1 as [[]|y]|];
        destruct (ext close _).1 as [[]|z]; discriminate.
  - split; [|intros (Ha & _); discriminate Ha].
    destruct (isinstance_Exception e);
      [destruct (ext rollback _).1 as [[]|y]|];
      destruct (ext close _).1 as [[]|z]; discriminate.
Qed.
End Scope_outcome.

(** ** Every way [list_dir] can end *)

Lemma yield_keys_stop (objs : list S3Object) :
  (AWSCloudManager.yield_keys objs).2 =
    if forallb has_Key objs then None else Some (Exn KeyError "'Key'").
Proof.
  induction objs as [|obj objs IH]; [reflexivity|].
  cbn [forallb AWSCloudManager.yield_keys]. unfold has_Key at 1.
  destruct (obj !! "Key"%string) as [k|]; [|reflexivity].
  destruct (AWSCloudManager.yield_keys objs) as [ks stop]. exact IH.
Qed.

Lemma yield_pages_stop (pages : list Page) (stop : option exn) :
  (AWSCloudManager.yield_pages pages stop).2 =
    if forallb well_keyed pages then stop else Some (Exn KeyError "'Key'").
Proof.
  induction pages as [|page pages IH]; [reflexivity|].
  cbn [forallb AWSCloudManager.yield_pages].
  pose proof (yield_keys_stop (default [] (page !! "Contents"%string))) as Hk.
  unfold well_keyed at 1.
  destruct (AWSCloudManager.yield_keys _) as [ks [e|]]; cbn [snd] in Hk.
  - destruct (forallb has_Key _); [discriminate Hk|].
    injection Hk as ->. reflexivity.
  - destruct (forallb has_Key _); [|discriminate Hk].
    destruct (AWSCloudManager.yield_pages pages stop) as [ks' stop'].
    exact IH.
Qed.

Section Listing_more.
Context {W : Type} `{External W}.

(** X9.  [list_dir], run to exhaustion on a manager that has its client,
    makes one call, the [list_objects_v2] paginator for the bucket and the
    prefix, and ends in one of four ways: the paginator's exception, when
    it raises before any page; [KeyError('Key')], when some delivered
    object has no ["Key"] entry, whatever the paginator would do later;
    the exception that stops the paginator after its pages, when all
    objects have their key; otherwise the listed keys, page after page. *)
Theorem X9_list_dir_outcomes
    (self : AWSCloudManager.t) (env : Env W) (c : S3Client)
    (self1 : AWSCloudManager.t) (env1 : Env W) (b p : string) :
  AWSCloudManager.s3_client (self, env) = (Ok c, (self1, env1)) ->
  let paginate := S3_paginate c "list_objects_v2" b p in
  let out := AWSCloudManager.list_dir b p (self, env) in
  out.2 = (self1, {| log := log env1 ++ [Ext paginate];
                     world := after paginate (world env1) |})
  /\ out.1 =
       match (ext paginate (world env1)).1 with
       | Raise e => Raise e
       | Ok (pages, stop) =>
           if forallb well_keyed pages then
             match stop with
             | None => Ok (List.concat (List.map listed_keys pages))
             | Some e => Raise e
             end
           else Raise (Exn KeyError "'Key'")
       end.
Proof.
  intros Hs paginate out.
  assert (Hout : out =
    (match (ext paginate (world env1)).1 with
     | Raise e => Raise e
     | Ok (pages, stop) =>
         match AWSCloudManager.yield_pages pages stop with
         | (ks, None) => Ok ks
         | (_, Some e) => Raise e
         end
     end,
     (self1, {| log := log env1 ++ [Ext paginate];
                world := after paginate (world env1) |}))).
  { subst out. unfold AWSCloudManager.list_dir, bind at 1. rewrite Hs.
    unfold bind. fold paginate. rewrite (extern_eq paginate), call_ext_eq.
    cbn [fst snd].
    destruct (ext paginate (world env1)).1 as [[pages stop]|e];
      [|reflexivity].
    destruct (AWSCloudManager.yield_pages pages stop) as [ks [e|]];
      reflexivity. }
  rewrite Hout. cbn [fst snd]. split; [reflexivity|].
  destruct (ext paginate (world env1)).1 as [[pages stop]|e]; [|reflexivity].
  pose proof (yield_pages_stop pages stop) as Hstop.
  destruct (forallb well_keyed pages) eqn:Hk.
  - rewrite (yield_pages_well_keyed _ _ Hk).
    destruct stop as [e|]; reflexivity.
  - destruct (AWSCloudManager.yield_pages pages stop) as [ks [e|]];
      cbn [snd] in Hstop; [|discriminate Hstop].
    injection Hstop as ->. reflexivity.
Qed.
End Listing_more.

(** ** Sequences of calls through the facade *)

Section Facade_more.
Context {W : Type} `{External W}.

Implicit Types (env : Env W) (op : operation).

Lemma run_calls_through_cached provider config (ops : list operation) :
  forall (m : AWSCloudManager.t) env,
    run_calls CloudManager_call ops
              (CloudManager.mk provider config (Some m), env) =
      let direct := run_calls AWSCloudManager_call ops (m, env) in
      (direct.1,
       (CloudManager.mk provider config (Some direct.2.1), direct.2.2)).
Proof.
  induction ops as [|op ops IH]; intros m env; cbn [run_calls].
  - reflexivity.
  - rewrite CloudManager_call_cached. cbn zeta.
    destruct (AWSCloudManager_call op (m, env)) as [r [m1 env1]].
    cbn [fst snd]. rewrite IH. cbn zeta.
    destruct (run_calls AWSCloudManager_call ops (m1, env1))
      as [rs [m2 env2]].
    reflexivity.
Qed.

(** X10.  Any sequence of method calls on a [CloudManager] with provider
    AWS gives, call by call, the results that the same sequence gives when
    made directly on one [AWSCloudManager] built from the stored
    configuration, and leaves the same log and world (after the one
    construction that the first call causes); the facade ends up holding
    that manager as the direct calls left it.  The facade adds no call,
    drops none and changes no result. *)
Theorem X10_facade_sequence (p : CloudProvider) (config : AWSConfig)
    op (ops : list operation) env :
  let out := run_calls CloudManager_call (op :: ops)
               (CloudManager.__init__ (PyEnum p) config, env) in
  let direct := run_calls AWSCloudManager_call (op :: ops)
                  (AWSCloudManager.__init__ config, constructed config env) in
  out.1 = direct.1
  /\ out.2.2 = direct.2.2
  /\ out.2.1 = CloudManager.mk (PyEnum p) config (Some direct.2.1).
Proof.
  cbn zeta. cbn [run_calls]. rewrite CloudManager_call_fresh. cbn zeta.
  destruct (AWSCloudManager_call op _) as [r [m1 env1]]. cbn [fst snd].
  rewrite run_calls_through_cached. cbn zeta.
  destruct (run_calls AWSCloudManager_call ops (m1, env1)) as [rs [m2 env2]].
  auto.
Qed.
End Facade_more.

(** ** The two programs *)

Section Programs.
Context {W : Type} `{External W}.

Implicit Types (env : Env W) (db : Database.t).

Lemma upload_object_no_session_call (f b k : string)
    (self : AWSCloudManager.t) env :
  exists delta,
    log (AWSCloudManager.upload_object f b k (self, env)).2.2
      = log env ++ delta
    /\ Forall (fun e => is_session_call e = false) delta.
Proof.
  unfold AWSCloudManager.upload_object, bind.
  destruct (AWSCloudManager._s3_client self) as [c|] eqn:Hc.
  - rewrite (s3_client_cached _ _ _ Hc).
    rewrite (extern_eq (S3_upload_file c f b k)), call_ext_eq. cbn [snd log].
    eexists. split; [reflexivity|]. repeat constructor.
  - rewrite (s3_client_fresh _ _ Hc). cbn zeta.
    rewrite !call_ext_eq. cbn [fst snd log world].
    destruct (ext (boto3_Session _) (world env)).1 as [[]|e]; cbn [snd log].
    + destruct (ext (Session_client _ _ _) _).1 as [[]|e]; cbn [snd log].
      * rewrite (extern_eq (S3_upload_file (client_of self) f b k)),
          call_ext_eq. cbn [snd log]. rewrite <- !app_assoc.
        eexists. split; [reflexivity|]. repeat constructor.
      * rewrite <- !app_assoc.
        eexists. split; [reflexivity|]. repeat constructor.
    + eexists. split; [reflexivity|]. repeat constructor.
Qed.

(** X11.  [dl_archiver.main], with the module-level [config] and [db]
    built from an environment in which [READONLY_DATABASE_URL] is unset or
    empty, never returns normally and never reaches the database: its first
    call writes ["Hello, world!"] to [test.txt], no session is asked for
    and no statement is executed.  The exception that leaves it is the
    first failure among the file write, [config.cloud_provider] and the
    upload, and, when all three succeed, the [RuntimeError] of the missing
    read-only connection. *)
Theorem X11_archiver_without_readonly_url
    (environ : gmap string string) env0 (config : Config.t) db env1 env :
  truthy (environ !! "READONLY_DATABASE_URL"%string) = false ->
  dl_archiver.module_init environ env0 = (Ok (config, db), env1) ->
  let out := dl_archiver.main config db env in
  let write := open_write "test.txt" "Hello, world!" in
  is_Ok out.1 = false
  /\ (exists rest,
        log out.2 = log env ++ Ext write :: rest
        /\ Forall (fun e => is_session_call e = false) rest)
  /\ out.1 =
       match (ext write (world env)).1 with
       | Raise e => Raise e
       | Ok _ =>
           match Config.cloud_provider config with
           | Raise e => Raise e
           | Ok p =>
               match (on_local
                        (CloudManager.__init__ (PyEnum p)
                           (Config.provider_config config))
                        (CloudManager.upload_object
                           "test.txt" "test-bucket" "test.txt")
                        (call_ext write env).2).1 with
               | Raise e => Raise e
               | Ok _ => Raise Database.not_configured
               end
           end
       end.
Proof.
  intros Hf Hinit out write.
  assert (Hro : Database._session_ro db = None).
  { revert Hinit. unfold dl_archiver.module_init, bind.
    destruct (Database.__init__ _ _ env0) as [[db0|e] env'] eqn:Hdb;
      [|discriminate].
    intros [= _ <- _].
    exact (proj2 (init_without_readonly_url _ _ _ _ _ Hf Hdb)). }
  assert (Hsession : forall env',
    Database.session db true
      (fun session =>
         call_ext (Session_execute session dl_archiver.update_stmt)) env'
    = (Raise Database.not_configured, env')).
  { intros env'. unfold Database.session, bind. rewrite Hro. reflexivity. }
  set (env2 := {| log := log env ++ [Ext write];
                  world := after write (world env) |}).
  set (upload := fun p : CloudProvider =>
    on_local
      (CloudManager.__init__ (PyEnum p) (Config.provider_config config))
      (CloudManager.upload_object "test.txt" "test-bucket" "test.txt") env2).
  assert (Hout : out =
    match (ext write (world env)).1 with
    | Raise e => (Raise e, env2)
    | Ok _ =>
        match Config.cloud_provider config with
        | Raise e => (Raise e, env2)
        | Ok p =>
            match (upload p).1 with
            | Raise e => (Raise e, (upload p).2)
            | Ok _ => (Raise Database.not_configured, (upload p).2)
            end
        end
    end).
  { subst out. unfold dl_archiver.main, bind at 1. fold write.
    rewrite (call_ext_eq write env). fold env2.
    destruct (ext write (world env)).1 as [[]|e]; [|reflexivity].
    unfold bind at 1. unfold dl_archiver.lift_result at 1.
    destruct (Config.cloud_provider config) as [p|e]; [|reflexivity].
    unfold bind at 1. fold (upload p).
    destruct (upload p) as [[[]|e] env3]; [|reflexivity].
    apply Hsession. }
  assert (Hup : forall p, exists delta,
    log (upload p).2 = log env2 ++ delta
    /\ Forall (fun e => is_session_call e = false) delta).
  { intros p. subst upload. cbn beta.
    unfold on_local, CloudManager.upload_object, bind.
    rewrite manager_fresh. cbn [CloudManager.call_method].
    destruct (upload_object_no_session_call "test.txt" "test-bucket"
                "test.txt"
                (AWSCloudManager.__init__ (Config.provider_config config))
                (constructed (Config.provider_config config) env2))
      as (delta & Hlog & Hnone).
    destruct (AWSCloudManager.upload_object _ _ _ _) as [r [m' env']].
    cbn [fst snd] in *.
    exists (New_AWSCloudManager (Config.provider_config config) :: delta).
    split.
    - rewrite Hlog. unfold constructed. cbn [log].
      rewrite <- app_assoc. reflexivity.
    - constructor; [reflexivity|exact Hnone]. }
  rewrite (call_ext_eq write env). cbn [snd]. fold env2.
  rewrite Hout.
  destruct (ext write (world env)).1 as [[]|e].
  2:{ cbn [fst snd log is_Ok]. split; [reflexivity|]. split; [|reflexivity].
      exists []. split; [reflexivity|constructor]. }
  destruct (Config.cloud_provider config) as [p|e].
  2:{ cbn [fst snd log is_Ok]. split; [reflexivity|]. split; [|reflexivity].
      exists []. split; [reflexivity|constructor]. }
  destruct (Hup p) as (delta & Hlog & Hnone).
  fold (upload p).
  destruct (upload p) as [[[]|e] env3]; cbn [fst snd is_Ok] in *;
    (split; [reflexivity|]); (split; [|reflexivity]);
    exists delta; (split; [|exact Hnone]);
    rewrite Hlog; subst env2; cbn [log]; rewrite <- app_assoc; reflexivity.
Qed.
End Programs.

(** ** Upload and download on the object store *)

(** X13.  On the object store, what [upload_object(f, b, k)] sends is what
    [download_object(b, k, f2)] brings back: when the local file [f]
    exists, both calls return normally, the object at (b, k) and the local
    file [f2] hold the content of [f], every other local file is as it
    was, and the only two calls made are
    [upload_file(Filename=f, Bucket=b, Key=k)] and
    [download_file(Bucket=b, Key=k, Filename=f2)]. *)
Theorem X13_upload_download_round_trip
    (self : AWSCloudManager.t) (env : Env S3World) (c : S3Client)
    (self1 : AWSCloudManager.t) (env1 : Env S3World)
    (f b k f2 data : string) :
  AWSCloudManager.s3_client (self, env) = (Ok c, (self1, env1)) ->
  files (world env1) !! f = Some data ->
  let up := AWSCloudManager.upload_object f b k (self, env) in
  let down := AWSCloudManager.download_object b k f2 up.2 in
  let final := world down.2.2 in
  up.1 = Ok tt
  /\ down.1 = Ok tt
  /\ files final !! f2 = Some data
  /\ objects final !! (b, k) = Some data
  /\ (forall path, path <> f2 ->
        files final !! path = files (world env1) !! path)
  /\ log down.2.2 =
       log env1 ++ [Ext (S3_upload_file c f b k);
                    Ext (S3_download_file c b k f2)].
Proof.
  intros Hs Hfile up down final.
  assert (Hc : AWSCloudManager._s3_client self1 = Some c)
    by exact (s3_client_Ok_cached _ _ _ _ _ Hs).
  set (uploaded :=
    {| log := log env1 ++ [Ext (S3_upload_file c f b k)];
       world := set_objects (world env1)
                  (<[ (b, k) := data ]> (objects (world env1))) |}).
  assert (Hup : up = (Ok tt, (self1, uploaded))).
  { subst up. unfold AWSCloudManager.upload_object, bind. rewrite Hs.
    rewrite (extern_eq (S3_upload_file c f b k)), call_ext_eq.
    unfold after, ext, S3Model. rewrite Hfile. reflexivity. }
  assert (Hdown : down =
    (Ok tt,
     (self1,
      {| log := log uploaded ++ [Ext (S3_download_file c b k f2)];
         world := set_files (world uploaded)
                    (<[ f2 := data ]> (files (world uploaded))) |}))).
  { subst down. rewrite Hup. cbn [snd].
    unfold AWSCloudManager.download_object, bind.
    rewrite (s3_client_cached _ _ _ Hc).
    rewrite (extern_eq (S3_download_file c b k f2)), call_ext_eq.
    unfold after, ext, S3Model.
    cbn [world uploaded objects set_objects].
    rewrite lookup_insert_eq. reflexivity. }
  subst final. rewrite Hdown, Hup.
  cbn [fst snd log world files objects set_files set_objects uploaded].
  split; [reflexivity|]. split; [reflexivity|].
  split; [apply lookup_insert_eq|].
  split; [apply lookup_insert_eq|].
  split; [|rewrite <- app_assoc; reflexivity].
  intros path Hne. apply lookup_insert_ne. congruence.
Qed.

(** ** The further properties at work *)

Lemma X2_transfer_object_calls_witness :
  AWSCloudManager.s3_client (AWSCloudManager.__init__ ∅, start demo_world)
    = (Ok demo_client, (demo_manager, demo_env))
  /\ (let out := AWSCloudManager.transfer_object "b" "missing" "b2" "k2" true
                   (AWSCloudManager.__init__ ∅, start demo_world) in
      out.1 = Raise (client_error "NoSuchKey")
      /\ log out.2.2 =
           log demo_env
           ++ [Ext (S3_copy_object demo_client "b2" "k2" "b/missing")]).
Proof.
  assert (Hs : AWSCloudManager.s3_client
                 (AWSCloudManager.__init__ ∅, start demo_world)
               = (Ok demo_client, (demo_manager, demo_env)))
    by reflexivity.
  split; [exact Hs|].
  pose proof (X2_transfer_object_calls _ _ _ _ _ "b" "missing" "b2" "k2" true
                Hs) as (Hlog & Hraise & _).
  assert (Hr : returns (S3_copy_object demo_client "b2" "k2" "b/missing")
                       (world demo_env) = false)
    by (vm_compute; reflexivity).
  cbv zeta. split.
  - rewrite (Hraise Hr). vm_compute. reflexivity.
  - exact Hlog.
Defined.

Lemma X3_no_client_no_call_witness :
  AWSCloudManager.s3_client (AWSCloudManager.__init__ ∅, start tt)
    = (Raise unreachable,
       (AWSCloudManager.__init__ ∅,
        {| log := [Ext (boto3_Session None)]; world := tt |}))
  /\ AWSCloudManager_call (List_dir "test-bucket" "")
       (AWSCloudManager.__init__ ∅, start tt)
     = (Raise unreachable,
        (AWSCloudManager.__init__ ∅,
         {| log := [Ext (boto3_Session None)]; world := tt |})).
Proof.
  assert (Hs : AWSCloudManager.s3_client
                 (AWSCloudManager.__init__ ∅, start tt)
               = (Raise unreachable,
                  (AWSCloudManager.__init__ ∅,
                   {| log := [Ext (boto3_Session None)]; world := tt |})))
    by reflexivity.
  split; [exact Hs|].
  exact (proj1 (X3_no_client_no_call (List_dir "test-bucket" "")
                  _ _ _ _ _ Hs)).
Defined.

Lemma X4_one_call_outcome_unchanged_witness :
  AWSCloudManager.s3_client (AWSCloudManager.__init__ ∅, start demo_world)
    = (Ok demo_client, (demo_manager, demo_env))
  /\ AWSCloudManager.download_object "b" "missing" "out.txt"
       (AWSCloudManager.__init__ ∅, start demo_world)
     = (Raise (client_error "404"),
        (demo_manager,
         {| log := log demo_env
                   ++ [Ext (S3_download_file demo_client "b" "missing"
                                             "out.txt")];
            world := demo_world |})).
Proof.
  assert (Hs : AWSCloudManager.s3_client
                 (AWSCloudManager.__init__ ∅, start demo_world)
               = (Ok demo_client, (demo_manager, demo_env)))
    by reflexivity.
  split; [exact Hs|].
  pose proof (X4_one_call_outcome_unchanged _ _ _ _ _ "out.txt" "b" "missing"
                Hs) as (_ & Hdown & _).
  rewrite Hdown. vm_compute. reflexivity.
Defined.

Lemma X6_sessions_routed_witness :
  let main := {| engine_url := "sqlite:///main.db"; engine_echo := false |} in
  let replica :=
    {| engine_url := "sqlite:///replica.db"; engine_echo := false |} in
  let db :=
    {| Database._db := main;
       Database._db_ro := Some replica;
       Database._session := Database.new_sessionmaker main;
       Database._session_ro := Some (Database.new_sessionmaker replica) |} in
  let body : OrmSession -> M (Env nat) unit :=
    fun s =>
      if String.eqb (engine_url (sm_bind (orm_maker s))) "sqlite:///replica.db"
      then call_ext (Session_execute s dl_efs_cleanup.select_stmt)
      else raise (Exn RuntimeError "session on the write database") in
  Database.__init__ (W:=nat) "sqlite:///main.db"
    (Some "sqlite:///replica.db") (start 0)
  = (Ok db,
     {| log := [Ext (create_engine "sqlite:///main.db" false);
                Ext (create_engine "sqlite:///replica.db" false)];
        world := 0 |})
  /\ Database.session db true body (start 0)
     = Database.session db true
         (fun s => call_ext (Session_execute s dl_efs_cleanup.select_stmt))
         (start 0).
Proof.
  intros main replica db body.
  assert (Hinit : Database.__init__ (W:=nat) "sqlite:///main.db"
                    (Some "sqlite:///replica.db") (start 0)
                  = (Ok db,
                     {| log := [Ext (create_engine "sqlite:///main.db" false);
                                Ext (create_engine "sqlite:///replica.db"
                                                   false)];
                        world := 0 |})) by reflexivity.
  split; [exact Hinit|].
  apply (X6_sessions_routed _ _ _ _ _ true body _ (start 0) Hinit).
  intros s Hs. unfold body. rewrite Hs. reflexivity.
Defined.

Lemma X7_no_session_no_scope_witness :
  maker_for demo_db false = Some demo_maker
  /\ (ext (sessionmaker_call demo_maker) (world (start tt))).1
     = Raise unreachable
  /\ Database.session demo_db false
       (fun s => call_ext (Session_execute s dl_efs_cleanup.select_stmt))
       (start tt)
     = (Raise unreachable,
        {| log := [Ext (sessionmaker_call demo_maker)]; world := tt |}).
Proof.
  assert (Hm : maker_for demo_db false = Some demo_maker) by reflexivity.
  assert (He : (ext (sessionmaker_call demo_maker) (world (start tt))).1
               = Raise unreachable) by reflexivity.
  split; [exact Hm|]. split; [exact He|].
  exact (X7_no_session_no_scope demo_db false demo_maker
           (fun s => call_ext (Session_execute s dl_efs_cleanup.select_stmt))
           (start tt) unreachable Hm He).
Defined.

Lemma X8_scope_outcome_witness :
  maker_for demo_db false = Some demo_maker
  /\ Database.new_session (W:=nat) demo_maker (start 0)
     = (Ok demo_session,
        {| log := [Ext (sessionmaker_call demo_maker)]; world := 1 |})
  /\ (Database.session (W:=nat) demo_db false (fun _ => ret 7) (start 0)).1
     = Ok 7.
Proof.
  assert (Hm : maker_for demo_db false = Some demo_maker) by reflexivity.
  assert (Hnew : Database.new_session (W:=nat) demo_maker (start 0)
                 = (Ok demo_session,
                    {| log := [Ext (sessionmaker_call demo_maker)];
                       world := 1 |})) by reflexivity.
  split; [exact Hm|]. split; [exact Hnew|].
  apply (proj2 (X8_scope_outcome demo_db false demo_maker (fun _ => ret 7)
                  (start 0) _ _ Hm Hnew) 7).
  repeat split; reflexivity.
Defined.

Lemma X9_list_dir_outcomes_witness :
  let pages : list Page :=
    [ {[ "Contents" := [ ({[ "Key" := "a/1" ]} : S3Object);
                         ({[ "ETag" := "0cc175b9" ]} : S3Object) ] ]} ] in
  let env1 : Env (list Page) :=
    {| log := [Ext (boto3_Session None);
               Ext (Session_client {| session_profile_name := None |} "s3"
                                   (Some "us-east-1"))];
       world := pages |} in
  AWSCloudManager.s3_client (AWSCloudManager.__init__ ∅, start pages)
    = (Ok demo_client, (demo_manager, env1))
  /\ (AWSCloudManager.list_dir "b" "a/"
        (AWSCloudManager.__init__ ∅, start pages)).1
     = Raise (Exn KeyError "'Key'").
Proof.
  intros pages env1.
  assert (Hs : AWSCloudManager.s3_client
                 (AWSCloudManager.__init__ ∅, start pages)
               = (Ok demo_client, (demo_manager, env1))) by reflexivity.
  split; [exact Hs|].
  rewrite (proj2 (X9_list_dir_outcomes _ _ _ _ _ "b" "a/" Hs)).
  vm_compute. reflexivity.
Defined.

Lemma X11_archiver_without_readonly_url_witness :
  let environ : gmap string string := {[ "CLOUD_PROVIDER" := "AWS" ]} in
  truthy (environ !! "READONLY_DATABASE_URL") = false
  /\ dl_archiver.module_init (W:=nat) environ (start 0)
     = (Ok (Config.__init__ environ, demo_db),
        {| log := [Ext (create_engine "sqlite:///:memory:" false)];
           world := 0 |})
  /\ is_Ok (dl_archiver.main (W:=nat) (Config.__init__ environ) demo_db
              (start 0)).1 = false.
Proof.
  intros environ.
  assert (Hf : truthy (environ !! "READONLY_DATABASE_URL") = false)
    by (vm_compute; reflexivity).
  assert (Hinit : dl_archiver.module_init (W:=nat) environ (start 0)
                  = (Ok (Config.__init__ environ, demo_db),
                     {| log := [Ext (create_engine "sqlite:///:memory:" false)];
                        world := 0 |})) by (vm_compute; reflexivity).
  split; [exact Hf|]. split; [exact Hinit|].
  exact (proj1 (X11_archiver_without_readonly_url environ _ _ _ _ (start 0)
                  Hf Hinit)).
Defined.


Lemma X13_upload_download_round_trip_witness :
  AWSCloudManager.s3_client (AWSCloudManager.__init__ ∅, start demo_world)
    = (Ok demo_client, (demo_manager, demo_env))
  /\ files (world demo_env) !! "b" = Some "local bytes"
  /\ (let up := AWSCloudManager.upload_object "b" "archive" "2024/b"
                  (AWSCloudManager.__init__ ∅, start demo_world) in
      let down := AWSCloudManager.download_object "archive" "2024/b"
                    "restored" up.2 in
      files (world down.2.2) !! "restored" = Some "local bytes").
Proof.
  assert (Hs : AWSCloudManager.s3_client
                 (AWSCloudManager.__init__ ∅, start demo_world)
               = (Ok demo_client, (demo_manager, demo_env)))
    by reflexivity.
  assert (Hfile : files (world demo_env) !! "b" = Some "local bytes")
    by (vm_compute; reflexivity).
  split; [exact Hs|]. split; [exact Hfile|].
  exact (proj1 (proj2 (proj2
    (X13_upload_download_round_trip _ _ _ _ _ "b" "archive" "2024/b"
       "restored" "local bytes" Hs Hfile)))).
Defined.
